(** * A shallow embedding of the Compal CH7465LG client (compal/__init__.py)

    The development models the session/transport layer of the client
    (class [Compal]), the configuration restore of [BackupRestore] and the
    function scanner ([FuncScanner]) as programs in a state-and-exception
    monad, and proves properties of them.

    Modelling boundary.  Everything below [requests.Session.post] is the
    outside world: the device is a script of outcomes ([wire]) consumed one
    per request, and every request handed to the session is appended to a
    log ([sent]).  The response hook registered in [Compal.__init__]
    ([token_handler]) runs on each response before it reaches the caller,
    as the requests library does; a request that follows redirects is
    represented by its final response.  What requests does with the data it
    is given (URL-encoding, dropping [None] values) is not modelled: a
    request is the argument list of [session.post].  Logging calls are left
    out, except that their arguments are evaluated (one of them can raise).
    The optional keyword arguments of [post]/[post_binary], which no caller
    in the module passes, are left out as well. *)

From Stdlib Require Import ZArith String Ascii DecimalString.
From stdpp Require Import base option list strings gmap.

Open Scope Z_scope.
Open Scope string_scope.

(** ** Python values, dictionaries, exceptions *)

(** The values that end up in request fields: [None], a [str], an [int]. *)
Inductive value :=
| VNone
| VStr (s : string)
| VInt (n : Z).

Global Instance value_eq_dec : EqDecision value.
Proof. solve_decision. Defined.

(** A [dict]/[OrderedDict]: insertion-ordered association list.  The
    operations below keep keys unique when they start from unique keys. *)
Abbreviation dict := (list (string * value)).

(** [k in d] *)
Fixpoint dict_contains (k : string) (d : dict) : bool :=
  match d with
  | [] => false
  | (k', _) :: d' => if decide (k' = k) then true else dict_contains k d'
  end.

(** [d.get(k)] *)
Fixpoint dict_get (k : string) (d : dict) : option value :=
  match d with
  | [] => None
  | (k', v) :: d' => if decide (k' = k) then Some v else dict_get k d'
  end.

(** [d[k] = v]: an existing key keeps its position, a new key goes last. *)
Fixpoint dict_setitem (k : string) (v : value) (d : dict) : dict :=
  match d with
  | [] => [(k, v)]
  | (k', v') :: d' =>
      if decide (k' = k) then (k, v) :: d' else (k', v') :: dict_setitem k v d'
  end.

(** [del d[k]], the mapping that [d.pop(k)] leaves behind. *)
Fixpoint dict_remove (k : string) (d : dict) : dict :=
  match d with
  | [] => []
  | (k', v') :: d' =>
      if decide (k' = k) then d' else (k', v') :: dict_remove k d'
  end.

(** [d.update(other)]: the items of [other], in its order, are assigned. *)
Definition dict_update (d other : dict) : dict :=
  fold_left (fun acc kv => dict_setitem kv.1 kv.2 acc) other d.

Definition keys (d : dict) : list string := d.*1.

Inductive exn :=
| ReadTimeout                          (* requests.exceptions.ReadTimeout *)
| RequestException (name : string)     (* any other requests exception *)
| ValueError (msg : string)
| TypeError (msg : string)
| KeyError (k : string).

Global Instance exn_eq_dec : EqDecision exn.
Proof. solve_decision. Defined.

Inductive result (A : Type) :=
| Ok (a : A)
| Raise (e : exn).
Arguments Ok {A} a.
Arguments Raise {A} e.

(** ** The state-and-exception monad

    A computation takes the state and gives a result or an exception,
    together with the state it leaves: what was mutated before an exception
    stays mutated. *)
Definition Py (S A : Type) : Type := S → result A * S.

Global Instance py_ret {S} : MRet (Py S) := λ A a s, (Ok a, s).
Global Instance py_bind {S} : MBind (Py S) :=
  λ A B k m s, match m s with
               | (Ok a, s') => k a s'
               | (Raise e, s') => (Raise e, s')
               end.

Definition ret {S A} (a : A) : Py S A := mret a.
Definition raise {S A} (e : exn) : Py S A := λ s, (Raise e, s).
Definition gets {S A} (f : S → A) : Py S A := λ s, (Ok (f s), s).
Definition modify {S} (f : S → S) : Py S unit := λ s, (Ok tt, f s).

(** [try: m except ReadTimeout: h] *)
Definition try_except_ReadTimeout {S A} (m h : Py S A) : Py S A :=
  λ s, match m s with
       | (Raise ReadTimeout, s') => h s'
       | out => out
       end.

(** ** Responses, requests, the session *)

Record Response := {
  status_code : Z;
  text : string;
  cookies : gmap string string;
  headers : gmap string string
}.

(** [bool(res)] is [res.ok]: no 4xx or 5xx status. *)
Definition response_ok (r : Response) : bool :=
  negb ((400 <=? status_code r)%Z && (status_code r <? 600)%Z).

Inductive payload :=
| Form (fields : dict)              (* data=<OrderedDict> *)
| Raw (bytes : list Byte.byte).     (* data=<bytes> *)

(** What [self.session.post] is called with.  [None] for an argument that
    the call does not pass. *)
Record Request := {
  rq_url : string;
  rq_data : payload;
  rq_headers : list (string * string);
  rq_allow_redirects : option bool;
  rq_timeout : option Z
}.

(** What the device does with one request. *)
Inductive outcome :=
| Answers (r : Response)
| Fails (e : exn).

Definition loc := nat.

(** The [Compal] object with the world it lives in: the store of the
    dictionaries that are passed around by reference, the outcomes still to
    come from the device, and the requests issued so far (oldest first). *)
Record Compal := {
  router_ip : string;
  timeout : Z;
  key : option string;
  session_token : option string;
  session_cookies : gmap string string;
  objects : list dict;
  wire : list outcome;
  sent : list Request
}.

Definition set_session_token (t : option string) (c : Compal) : Compal :=
  {| router_ip := router_ip c; timeout := timeout c; key := key c;
     session_token := t; session_cookies := session_cookies c;
     objects := objects c; wire := wire c; sent := sent c |}.

Definition set_session_cookies (j : gmap string string) (c : Compal) : Compal :=
  {| router_ip := router_ip c; timeout := timeout c; key := key c;
     session_token := session_token c; session_cookies := j;
     objects := objects c; wire := wire c; sent := sent c |}.

Definition set_objects (o : list dict) (c : Compal) : Compal :=
  {| router_ip := router_ip c; timeout := timeout c; key := key c;
     session_token := session_token c; session_cookies := session_cookies c;
     objects := o; wire := wire c; sent := sent c |}.

Definition exchange (w : list outcome) (rq : Request) (c : Compal) : Compal :=
  {| router_ip := router_ip c; timeout := timeout c; key := key c;
     session_token := session_token c; session_cookies := session_cookies c;
     objects := objects c; wire := w; sent := (sent c ++ [rq])%list |}.

(** A dictionary literal or constructor call: a fresh object. *)
Definition alloc (d : dict) : Py Compal loc :=
  λ c, (Ok (length (objects c)), set_objects (objects c ++ [d])%list c).

Definition deref (l : loc) : Py Compal dict :=
  gets (λ c, default [] (objects c !! l)).

Definition store (l : loc) (d : dict) : Py Compal unit :=
  modify (λ c, set_objects (<[l := d]> (objects c)) c).

(** ** class Compal *)

(** [Compal.url] *)
Fixpoint strip_slashes (path : string) : string :=
  match path with
  | String "/" rest => strip_slashes rest
  | _ => path
  end.

Definition url (path : string) : Py Compal string :=
  ip ← gets router_ip;
  ret ("http://" ++ ip ++ "/" ++ strip_slashes path).

(** [Compal.token_handler].  The 302 branch evaluates
    [res.headers['Location']] for its log line. *)
Definition token_handler (res : Response) : Py Compal unit :=
  _ ← modify (set_session_token (cookies res !! "sessionToken"));
  if (status_code res =? 302)%Z then
    match headers res !! "Location" with
    | Some _ => ret tt
    | None => raise (KeyError "location")
    end
  else ret tt.

(** [self.session.post(...)]: the request goes out, the device answers or
    the transport fails; an answer passes through the response hook, and
    after the hook the session keeps the answer's cookies in its jar
    ([Session.send] persists them once the hooks have run), the answer's
    value winning for a name already there.  A device whose script has run
    out no longer answers. *)
Definition session_post (rq : Request) : Py Compal Response :=
  λ c, match wire c with
       | [] => (Raise (RequestException "ConnectionError"), exchange [] rq c)
       | Fails e :: w => (Raise e, exchange w rq c)
       | Answers r :: w =>
           (_ ← token_handler r;
            _ ← modify (λ c', set_session_cookies
                                (cookies r ∪ session_cookies c') c');
            ret r) (exchange w rq c)
       end.

Definition token_value (t : option string) : value :=
  match t with
  | Some s => VStr s
  | None => VNone
  end.

(** [Compal.post] *)
Definition post (path : string) (_data : loc) : Py Compal Response :=
  tok ← gets session_token;
  let data := dict_setitem "token" (token_value tok) [] in
  d ← deref _data;
  data ← (if dict_contains "fun" d then
            _ ← store _data (dict_remove "fun" d);
            ret (dict_setitem "fun" (default VNone (dict_get "fun" d)) data)
          else ret data);
  d ← deref _data;
  let data := dict_update data d in
  u ← url path;
  t ← gets timeout;
  session_post {| rq_url := u; rq_data := Form data; rq_headers := [];
                  rq_allow_redirects := Some false; rq_timeout := Some t |}.

(** The double-quote character of the header line. *)
Definition dquote : string := String "034"%char EmptyString.

(** [Compal.post_binary].  The method has no [return] statement. *)
Definition post_binary (path : string) (binary_data : list Byte.byte)
    (filename : string) : Py Compal (option Response) :=
  let headers :=
    [("Content-Disposition",
      "form-data; name=" ++ dquote ++ "file" ++ dquote ++ "; filename="
        ++ dquote ++ filename ++ dquote);
     ("Content-Type", "application/octet-stream")] in
  u ← url path;
  _ ← session_post {| rq_url := u; rq_data := Raw binary_data;
                      rq_headers := headers;
                      rq_allow_redirects := None; rq_timeout := None |};
  ret None.

(** [Compal.xml_getter] *)
Definition xml_getter (fun_ : value) (params : loc) : Py Compal Response :=
  d ← deref params;
  _ ← store params (dict_setitem "fun" fun_ d);
  post "/xml/getter.xml" params.

(** [Compal.xml_setter]; [params] defaults to [None], and item assignment
    on [None] raises. *)
Definition xml_setter (fun_ : value) (params : option loc) : Py Compal Response :=
  match params with
  | None => raise (TypeError "'NoneType' object does not support item assignment")
  | Some p =>
      d ← deref p;
      _ ← store p (dict_setitem "fun" fun_ d);
      post "/xml/setter.xml" p
  end.

(** [s.endswith(suffix)] *)
Definition endswith (s suffix : string) : bool :=
  let n := String.length s in
  let m := String.length suffix in
  (m <=? n)%nat && String.eqb (substring (n - m) m s) suffix.

(** Decimal rendering of an [int], as ["{}".format] and ["%i"] give it. *)
Definition str_of_int (n : Z) : string :=
  NilZero.string_of_int (Z.to_int n).

Section Client.

(** The function identifiers come from [compal/functions.py] and the parser
    of query strings from [urllib.parse]; the client is parametric in them. *)
Variable Set_LOGIN Set_REBOOT Set_FACTORY_RESET Set_LOGOUT : value.
Variable Get_DEFAULTVALUE Get_CM_SYSTEM_INFO : value.
Variable parse_qs : string → gmap string (list string).

(** [key if key else self.key] *)
Definition login_password (key_arg self_key : option string) : value :=
  match key_arg with
  | Some (String a k) => VStr (String a k)
  | _ => token_value self_key
  end.

(** [Compal.login] *)
Definition login (key_arg : option string) : Py Compal Response :=
  self_key ← gets key;
  p ← alloc [("Username", VStr "admin");
             ("Password", login_password key_arg self_key)];
  res ← xml_setter Set_LOGIN (Some p);
  if negb (status_code res =? 200)%Z then
    match headers res !! "Location" with
    | None => raise (KeyError "location")
    | Some l =>
        if endswith l "common_page/Access-denied.html"
        then raise (ValueError "Access denied. Still logged in somewhere else?")
        else raise (ValueError "Login failed for unknown reason!")
    end
  else
    match parse_qs (text res) !! "SID" with
    | None | Some [] =>
        raise (ValueError "No valid session-Id received! Wrong password?")
    | Some (token_sid :: _) =>
        _ ← modify (λ c, set_session_cookies
                           (<["SID" := token_sid]> (session_cookies c)) c);
        ret res
    end.

(** [Compal.reboot] *)
Definition reboot : Py Compal (option Response) :=
  try_except_ReadTimeout
    (p ← alloc []; res ← xml_setter Set_REBOOT (Some p); ret (Some res))
    (ret None).

(** [Compal.factory_reset] *)
Definition factory_reset : Py Compal Response :=
  p ← alloc [];
  default_settings ← xml_getter Get_DEFAULTVALUE p;
  _ ← try_except_ReadTimeout
        (q ← alloc []; _ ← xml_setter Set_FACTORY_RESET (Some q); ret tt)
        (ret tt);
  ret default_settings.


(** ** class BackupRestore *)

(** [BackupRestore.restore], on the modem the object holds *)
Definition restore (data : list Byte.byte) : Py Compal (option Response) :=
  res ← post_binary
          ("/xml/getter.xml?Restore=" ++ str_of_int (Z.of_nat (length data)))
          data "Config_Restore.bin";
  ret res.

(** ** class FuncScanner *)

Record FuncScanner := {
  modem : Compal;
  current_pos : Z;
  scanner_key : option string;
  last_login : Z
}.

Definition set_modem (c : Compal) (f : FuncScanner) : FuncScanner :=
  {| modem := c; current_pos := current_pos f;
     scanner_key := scanner_key f; last_login := last_login f |}.

Definition set_current_pos (i : Z) (f : FuncScanner) : FuncScanner :=
  {| modem := modem f; current_pos := i;
     scanner_key := scanner_key f; last_login := last_login f |}.

Definition set_last_login (i : Z) (f : FuncScanner) : FuncScanner :=
  {| modem := modem f; current_pos := current_pos f;
     scanner_key := scanner_key f; last_login := i |}.

(** [FuncScanner.__init__] *)
Definition new_scanner (m : Compal) (pos : Z) (k : option string) : FuncScanner :=
  {| modem := m; current_pos := pos; scanner_key := k; last_login := -1 |}.

(** A method call on [self.modem]. *)
Definition on_modem {A} (m : Py Compal A) : Py FuncScanner A :=
  λ f, let '(r, c) := m (modem f) in (r, set_modem c f).

(** [FuncScanner.is_valid_session] *)
Definition is_valid_session : Py FuncScanner bool :=
  res ← on_modem (p ← alloc []; xml_getter Get_CM_SYSTEM_INFO p);
  ret (status_code res =? 200)%Z.

(** The body of the [while] loop of [FuncScanner.scan]; it gives the value
    the loop variable [res] has when control returns to the loop test, be
    it through [continue] or by reaching the end of the body. *)
Definition scan_body : Py FuncScanner Response :=
  pos ← gets current_pos;
  res ← on_modem (p ← alloc []; xml_getter (VInt pos) p);
  continue ←
    (if String.eqb (text res) "" then
       valid ← is_valid_session;
       if negb valid then
         pos ← gets current_pos;
         _ ← modify (set_last_login pos);
         k ← gets scanner_key;
         _ ← on_modem (login k);
         ret true
       else ret false
     else ret false);
  if continue : bool then ret res
  else if (status_code res =? 200)%Z then
    _ ← modify (λ f, set_current_pos (current_pos f + 1) f);
    ret res
  else raise (ValueError ("HTTP " ++ str_of_int (status_code res))).

(** The loop test [not res or res.text is '']; [res.text] of an empty body
    is the interned empty string, so the identity test is an equality. *)
Definition scan_test (res : option Response) : bool :=
  match res with
  | None => true
  | Some r => negb (response_ok r) || String.eqb (text r) ""
  end.

(** [FuncScanner.scan] with a bound on the number of loop iterations;
    [None] when the bound is reached with the loop still running. *)
Fixpoint scan_loop (fuel : nat) (res : option Response)
    (f : FuncScanner) : option (result (option Response) * FuncScanner) :=
  if scan_test res then
    match fuel with
    | O => None
    | S fuel' =>
        match scan_body f with
        | (Ok r, f') => scan_loop fuel' (Some r) f'
        | (Raise e, f') => Some (Raise e, f')
        end
    end
  else Some (Ok res, f).

Definition scan (fuel : nat) : FuncScanner → option (result (option Response) * FuncScanner) :=
  scan_loop fuel None.

End Client.

(** ** Vocabulary of the statements *)

(** The request [post] hands to the session for a given field list. *)
Definition post_request (c : Compal) (path : string) (fields : dict) : Request :=
  {| rq_url := "http://" ++ router_ip c ++ "/" ++ strip_slashes path;
     rq_data := Form fields; rq_headers := [];
     rq_allow_redirects := Some false; rq_timeout := Some (timeout c) |}.

(** The ['fun'] item of a dictionary, if it has one. *)
Definition fun_field (d : dict) : dict :=
  match dict_get "fun" d with
  | Some v => [("fun", v)]
  | None => []
  end.

(** The hook completes unless it has a [302] without [Location] to log. *)
Definition hook_completes (r : Response) : bool :=
  if (status_code r =? 302)%Z
  then bool_decide (is_Some (headers r !! "Location"))
  else true.

(** The field list [post] builds from the token and the caller's
    dictionary [d]: [data['token'] = ...], the popped ['fun'], then
    [data.update(_data)]. *)
Definition post_fields (tok : value) (d : dict) : dict :=
  dict_update (("token", tok) :: fun_field d) (dict_remove "fun" d).

(** The field order of the specification: the token, then ['fun'] if the
    caller has one, then the caller's other items in the caller's order. *)
Definition ordered_fields (tok : value) (d : dict) : dict :=
  (("token", tok) :: fun_field d ++ filter (λ kv, kv.1 ≠ "fun") d)%list.

(** ** Sample data for the worked instances *)

Definition sample_modem (tok : option string) (objs : list dict)
    (w : list outcome) : Compal :=
  {| router_ip := "192.168.178.1"; timeout := 10; key := Some "1234567";
     session_token := tok; session_cookies := ∅;
     objects := objs; wire := w; sent := [] |}.

Definition sample_response (status : Z) (body : string)
    (tok : option string) (location : option string) : Response :=
  {| status_code := status; text := body;
     cookies := match tok with
                | Some t => {["sessionToken" := t]}
                | None => ∅
                end;
     headers := match location with
                | Some l => {["Location" := l]}
                | None => ∅
                end |}.

(** A plain query-string parser for the worked instances: [&]-separated
    [name=value] items, blank values dropped, no percent-decoding. *)
Fixpoint split_on (sep : ascii) (s : string) : list string :=
  match s with
  | EmptyString => [EmptyString]
  | String a s' =>
      if Ascii.eqb a sep then EmptyString :: split_on sep s'
      else match split_on sep s' with
           | h :: t => String a h :: t
           | [] => [String a EmptyString]
           end
  end.

Definition sample_parse_qs (s : string) : gmap string (list string) :=
  fold_left
    (λ acc item,
       match split_on "=" item with
       | name :: v :: rest =>
           let val := fold_left (λ x y, x ++ "=" ++ y) rest v in
           if String.eqb val "" then acc
           else <[name := (default [] (acc !! name) ++ [val])%list]> acc
       | _ => acc
       end)
    (split_on "&" s) ∅.

(** The state in which the response hook has seen the answer [r] to [rq],
    and the state in which the session has taken the answer in. *)
Definition intercepted (r : Response) (w : list outcome) (rq : Request)
    (c : Compal) : Compal :=
  set_session_token (cookies r !! "sessionToken") (exchange w rq c).

Definition answered (r : Response) (w : list outcome) (rq : Request)
    (c : Compal) : Compal :=
  set_session_cookies (cookies r ∪ session_cookies c) (intercepted r w rq c).

(** The dictionary [login] builds and the request it leads to. *)
Definition login_params (key_arg : option string) (c : Compal) : dict :=
  [("Username", VStr "admin"); ("Password", login_password key_arg (key c))].

Definition login_request (Set_LOGIN : value) (key_arg : option string)
    (c : Compal) : Request :=
  post_request c "/xml/setter.xml"
    (("token", token_value (session_token c)) :: ("fun", Set_LOGIN)
       :: login_params key_arg c).

(** The request of a primitive called with an empty dictionary. *)
Definition getter_request (f : value) (c : Compal) : Request :=
  post_request c "/xml/getter.xml"
    [("token", token_value (session_token c)); ("fun", f)].

Definition setter_request (f : value) (c : Compal) : Request :=
  post_request c "/xml/setter.xml"
    [("token", token_value (session_token c)); ("fun", f)].

(** The request [post_binary] hands to the session. *)
Definition binary_request (c : Compal) (path : string)
    (binary_data : list Byte.byte) (filename : string) : Request :=
  {| rq_url := "http://" ++ router_ip c ++ "/" ++ strip_slashes path;
     rq_data := Raw binary_data;
     rq_headers :=
       [("Content-Disposition",
         "form-data; name=" ++ dquote ++ "file" ++ dquote ++ "; filename="
           ++ dquote ++ filename ++ dquote);
        ("Content-Type", "application/octet-stream")];
     rq_allow_redirects := None; rq_timeout := None |}.

(** Whether one pass through the loop body of [scan] moves the cursor, read
    off the outcomes the device has in store: the probe is answered [200]
    and either its body is not empty, or the session probe that follows an
    empty body is answered [200] too. *)
Definition probe_advances (w : list outcome) : bool :=
  match w with
  | Answers r :: w' =>
      (status_code r =? 200)%Z
      && (if String.eqb (text r) ""
          then match w' with
               | Answers v :: _ => (status_code v =? 200)%Z
               | _ => false
               end
          else true)
  | _ => false
  end.

(** The end of the loop body of [scan]: the status check. *)
Definition status_check (res : Response) : Py FuncScanner Response :=
  if (status_code res =? 200)%Z then
    _ ← modify (λ f, set_current_pos (current_pos f + 1) f);
    ret res
  else raise (ValueError ("HTTP " ++ str_of_int (status_code res))).

(** A scanner at position 7 whose session has been lost: the probe and the
    session probe are redirected to the login page with empty bodies, then
    the login is accepted and the position answers. *)
Definition stale_scanner : FuncScanner :=
  new_scanner
    (sample_modem (Some "52") []
       [Answers (sample_response 302 "" (Some "53")
                   (Some "../common_page/login.html"));
        Answers (sample_response 302 "" (Some "54")
                   (Some "../common_page/login.html"));
        Answers (sample_response 200 "successful&SID=abc123" (Some "55") None);
        Answers (sample_response 200 "<lang/>" (Some "56") None)])
    7 (Some "1234567").

(** A scanner at position 5 of a live session; function 5 has an empty
    body. *)
Definition live_scanner : FuncScanner :=
  new_scanner
    (sample_modem (Some "52") []
       [Answers (sample_response 200 "" (Some "53") None);
        Answers (sample_response 200 "<cm_system_info/>" (Some "54") None)])
    5 (Some "1234567").

(** A scanner whose next probe is answered with an error page, and one
    whose next probe is an empty [500] in a live session. *)
Definition failing_scanner : FuncScanner :=
  new_scanner
    (sample_modem (Some "52") []
       [Answers (sample_response 404 "<html>Not Found</html>" None None);
        Answers (sample_response 200 "<cm_system_info/>" (Some "54") None)])
    5 (Some "1234567").

Definition failing_empty_scanner : FuncScanner :=
  new_scanner
    (sample_modem (Some "52") []
       [Answers (sample_response 500 "" (Some "53") None);
        Answers (sample_response 200 "<cm_system_info/>" (Some "54") None);
        Answers (sample_response 200 "<x/>" (Some "55") None)])
    5 (Some "1234567").

(** ** More of class Compal *)

Definition set_key (k : option string) (c : Compal) : Compal :=
  {| router_ip := router_ip c; timeout := timeout c; key := k;
     session_token := session_token c; session_cookies := session_cookies c;
     objects := objects c; wire := wire c; sent := sent c |}.

Section Setup.

(** Identifiers of [compal/functions.py] used by the initial setup. *)
Variable Set_LANGUAGE Set_LOGIN Set_INSTALL_DONE : value.
Variable Get_MULTILANG Get_LANGSETLIST Get_WIRELESSBASIC : value.

(** [Compal.initial_setup]; it returns [None].  The dictionary literals
    keep the order in which their items are written. *)
Definition initial_setup (new_key : option string) : Py Compal unit :=
  _ ← match new_key with
      | Some (String a k) => modify (set_key (Some (String a k)))
      | _ => ret tt
      end;
  k ← gets key;
  match k with
  | Some (String _ _) =>
      p ← alloc [];
      _ ← xml_getter Get_MULTILANG p;
      p ← alloc [];
      _ ← xml_getter Get_LANGSETLIST p;
      p ← alloc [];
      _ ← xml_getter Get_MULTILANG p;
      p ← alloc [("lang", VStr "en")];
      _ ← xml_setter Set_LANGUAGE (Some p);
      k ← gets key;
      p ← alloc [("Username", VStr "admin"); ("Password", token_value k)];
      _ ← xml_setter Set_LOGIN (Some p);
      p ← alloc [];
      _ ← xml_getter Get_WIRELESSBASIC p;
      p ← alloc [("install", VInt 0); ("iv", VInt 1); ("en", VInt 0)];
      _ ← xml_setter Set_INSTALL_DONE (Some p);
      ret tt
  | _ => raise (ValueError "No key/password availalbe")
  end.

End Setup.

(** ** The settings classes

    Their methods can raise exceptions the transport layer never raises
    ([AssertionError], [AttributeError]); a call of such a method ends in a
    value or in one of the wider set of exceptions. *)

Inductive error :=
| Base (e : exn)
| AssertionError
| AttributeError (msg : string).

Inductive ended (A : Type) :=
| Returns (a : A)
| Raises (e : error).
Arguments Returns {A} a.
Arguments Raises {A} e.

Definition Call (A : Type) : Type := Compal → ended A * Compal.

(** A computation of the transport layer, run inside a settings method. *)
Definition lift {A} (m : Py Compal A) : Call A :=
  λ c, match m c with
       | (Ok a, c') => (Returns a, c')
       | (Raise e, c') => (Raises (Base e), c')
       end.

(** [sep.join(items)] *)
Fixpoint str_join (sep : string) (items : list string) : string :=
  match items with
  | [] => ""
  | [x] => x
  | x :: rest => x ++ sep ++ str_join sep rest
  end.

(** [s * n] for a one-character [s]; a negative [n] gives [''] *)
Definition str_repeat (a : ascii) (n : Z) : string :=
  string_of_list_ascii (replicate (Z.to_nat n) a).

(** [str(x)] for an [int] or [None] *)
Definition str_of_opt_int (x : option Z) : string :=
  match x with
  | Some n => str_of_int n
  | None => "None"
  end.

(** class [Proto] and [proto.value] *)
Inductive Proto := tcp | udp | both.

Definition proto_value (p : Proto) : Z :=
  match p with
  | tcp => 1
  | udp => 2
  | both => 3
  end.

(** The record class [PortForward]; its fields [delete] and [id] are
    [delete_] and [id_] here. *)
Record PortForward := {
  local_ip : string;
  ext_port : Z * Z;
  int_port : Z * Z;
  proto : Proto;
  enabled : bool;
  delete_ : bool;
  idd : option bool;
  id_ : option Z;
  lan_ip : option string
}.

(** The record classes [BandSetting] and [RadioSettings], with [mode] a
    [bool] and [hidden] an [int] as [band_setting] produces them
    ([int(hidden)] is then the number itself). *)
Record BandSetting := {
  mode : bool;
  ssid : value;
  bss_enable : value;
  radio : string;
  bandwidth : value;
  tx_mode : value;
  multicast_rate : value;
  hidden : Z;
  pre_shared_key : value;
  tx_rate : value;
  re_key : value;
  channel : value;
  security : value;
  wpa_algorithm : value
}.

Record RadioSettings := {
  bss_coexistence : value;
  radio_2g : BandSetting;
  radio_5g : BandSetting;
  nv_country : Z;
  channel_range : Z
}.

(** [OrderedDict(items)] *)
Definition OrderedDict (items : dict) : dict := dict_update [] items.

(** [b2i] of [update_firewall] *)
Definition b2i (b : bool) : Z := if b then 1 else 2.

(** [transform_radio] of [update_wifi_settings] *)
Definition transform_radio (radio_settings : BandSetting) : dict :=
  let out := OrderedDict [
    ("BandMode", VInt (Z.b2z (mode radio_settings)));
    ("Ssid", ssid radio_settings);
    ("Bandwidth", bandwidth radio_settings);
    ("TxMode", tx_mode radio_settings);
    ("MCastRate", multicast_rate radio_settings);
    ("Hiden", VInt (hidden radio_settings));
    ("PSkey", pre_shared_key radio_settings);
    ("Txrate", tx_rate radio_settings);
    ("Rekey", re_key radio_settings);
    ("Channel", channel radio_settings);
    ("Security", security radio_settings);
    ("Wpaalg", wpa_algorithm radio_settings)] in
  OrderedDict
    (map (λ kv, ("wl" ++ kv.1 ++ radio radio_settings, kv.2)) out).

(** The loop of [update_wifi_settings] over the zipped items. *)
Fixpoint alternate (bss : value) (items_2g items_5g : dict) : dict :=
  match items_2g, items_5g with
  | item_2g :: rest_2g, item_5g :: rest_5g =>
      (item_2g :: item_5g
         :: (if String.eqb item_2g.1 "wlHiden5g"
             then [("wlCoexistence", bss)] else [])
         ++ alternate bss rest_2g rest_5g)%list
  | _, _ => []
  end.

Section Settings.

Variable Set_FIREWALL Set_PORT_FORWARDING Set_WIFI_SETTINGS : value.
Variable Get_TRACEROUTE_RESULT : value.

(** [PortForwards.update_firewall] *)
Definition update_firewall (enabled fragment port_scan ip_flood icmp_flood : bool)
    (icmp_rate : Z) : Call Response :=
  if enabled || negb (fragment || port_scan || ip_flood || icmp_flood) then
    lift (p ← alloc [
            ("firewallProtection", VInt (b2i enabled));
            ("blockIpFragments", VStr "");
            ("portScanDetection", VStr "");
            ("synFloodDetection", VStr "");
            ("IcmpFloodDetection", VStr "");
            ("IcmpFloodDetectRate", VInt icmp_rate);
            ("action", VStr "");
            ("IPv6firewallProtection", VStr "");
            ("IPv6blockIpFragments", VStr "");
            ("IPv6portScanDetection", VStr "");
            ("IPv6synFloodDetection", VStr "");
            ("IPv6IcmpFloodDetection", VStr "");
            ("IPv6IcmpFloodDetectRate", VStr "")];
          xml_setter Set_FIREWALL (Some p))
  else λ c, (Raises AssertionError, c).

(** [PortForwards.add_forward]; [islice(repeat(x), 0, 2)] is [x, x]. *)
Definition add_forward (local_ip ext_port int_port : value) (proto : Proto)
    (enabled : bool) : Py Compal Response :=
  let '(start_int, end_int) := (int_port, int_port) in
  let '(start_ext, end_ext) := (ext_port, ext_port) in
  p ← alloc [
        ("action", VStr "add");
        ("instance", VStr "");
        ("local_IP", local_ip);
        ("start_port", start_ext); ("end_port", end_ext);
        ("start_portIn", start_int); ("end_portIn", end_int);
        ("protocol", VInt (proto_value proto));
        ("enable", VInt (Z.b2z enabled)); ("delete", VInt (Z.b2z false));
        ("idd", VStr "")];
  xml_setter Set_PORT_FORWARDING (Some p).

(** [PortForwards.update_rules] *)
Definition update_rules (rules : list PortForward) : Py Compal Response :=
  let empty_asterisk := str_repeat "*" (Z.of_nat (length rules) - 1) in
  p ← alloc [
        ("action", VStr "apply");
        ("instance",
         VStr (str_join "*" (map (λ r, str_of_opt_int (id_ r)) rules)));
        ("local_IP", VStr "");
        ("start_port", VStr ""); ("end_port", VStr "");
        ("start_portIn", VStr empty_asterisk);
        ("end_portIn", VStr "");
        ("protocol",
         VStr (str_join "*" (map (λ r, str_of_int (proto_value (proto r))) rules)));
        ("enable",
         VStr (str_join "*" (map (λ r, str_of_int (Z.b2z (enabled r))) rules)));
        ("delete",
         VStr (str_join "*" (map (λ r, str_of_int (Z.b2z (delete_ r))) rules)));
        ("idd", VStr empty_asterisk)];
  xml_setter Set_PORT_FORWARDING (Some p).

(** [WifiSettings.update_wifi_settings] *)
Definition update_wifi_settings (settings : RadioSettings) : Py Compal Response :=
  let out_s :=
    alternate (bss_coexistence settings)
      (transform_radio (radio_2g settings))
      (transform_radio (radio_5g settings)) in
  p ← alloc (OrderedDict out_s);
  xml_setter Set_WIFI_SETTINGS (Some p).

(** [Diagnostics.traceroute_response]; a [Response] has no attribute
    [test], so the attribute access raises once the response is there. *)
Definition traceroute_response : Call string :=
  λ c, match lift (p ← alloc []; xml_getter Get_TRACEROUTE_RESULT p) c with
       | (Returns _, c') =>
           (Raises (AttributeError
                      "'Response' object has no attribute 'test'"), c')
       | (Raises e, c') => (Raises e, c')
       end.

End Settings.

(** ** Vocabulary for the further properties *)

(** The number of outcomes at the head of a script that are answers the
    response hook lets through. *)
Fixpoint answered_prefix (w : list outcome) : nat :=
  match w with
  | Answers r :: w' => if hook_completes r then S (answered_prefix w') else O
  | _ => O
  end.

(** The number of occurrences of a character in a string. *)
Fixpoint count_char (a : ascii) (s : string) : nat :=
  match s with
  | EmptyString => O
  | String b s' => (if Ascii.eqb b a then 1 else 0) + count_char a s'
  end.

(** The value of a field of a form request. *)
Definition form_field (k : string) (rq : Request) : option value :=
  match rq_data rq with
  | Form fields => dict_get k fields
  | Raw _ => None
  end.

Definition form_keys (rq : Request) : list string :=
  match rq_data rq with
  | Form fields => keys fields
  | Raw _ => []
  end.

(** A sequence of primitive calls, each on a dictionary made for it from
    the state at that point, cut short by the first exception. *)
Fixpoint run_calls (calls : list (string * value * (Compal → dict)))
    (c : Compal) : result unit * Compal :=
  match calls with
  | [] => (Ok tt, c)
  | (path, f, mk) :: rest =>
      match session_post
              (post_request c path
                 (("token", token_value (session_token c)) :: ("fun", f)
                    :: mk c)%list)
              (set_objects (objects c ++ [mk c])%list c) with
      | (Ok _, c') => run_calls rest c'
      | (Raise e, c') => (Raise e, c')
      end
  end.

(** The key [initial_setup] works with: [new_key] if that is a non-empty
    string, else the stored key. *)
Definition setup_key (new_key : option string) (c : Compal) : option string :=
  match new_key with
  | Some (String a k) => Some (String a k)
  | _ => key c
  end.

(** The seven calls of [initial_setup]. *)
Definition setup_calls
    (Set_LANGUAGE Set_LOGIN Set_INSTALL_DONE
     Get_MULTILANG Get_LANGSETLIST Get_WIRELESSBASIC : value)
    : list (string * value * (Compal → dict)) :=
  [("/xml/getter.xml", Get_MULTILANG, λ _, []);
   ("/xml/getter.xml", Get_LANGSETLIST, λ _, []);
   ("/xml/getter.xml", Get_MULTILANG, λ _, []);
   ("/xml/setter.xml", Set_LANGUAGE, λ _, [("lang", VStr "en")]);
   ("/xml/setter.xml", Set_LOGIN,
    λ c, [("Username", VStr "admin"); ("Password", token_value (key c))]);
   ("/xml/getter.xml", Get_WIRELESSBASIC, λ _, []);
   ("/xml/setter.xml", Set_INSTALL_DONE,
    λ _, [("install", VInt 0); ("iv", VInt 1); ("en", VInt 0)])].

(** The twelve items [transform_radio] gives for a band, spelled out. *)
Definition radio_items (rs : BandSetting) : dict :=
  [("wlBandMode" ++ radio rs, VInt (Z.b2z (mode rs)));
   ("wlSsid" ++ radio rs, ssid rs);
   ("wlBandwidth" ++ radio rs, bandwidth rs);
   ("wlTxMode" ++ radio rs, tx_mode rs);
   ("wlMCastRate" ++ radio rs, multicast_rate rs);
   ("wlHiden" ++ radio rs, VInt (hidden rs));
   ("wlPSkey" ++ radio rs, pre_shared_key rs);
   ("wlTxrate" ++ radio rs, tx_rate rs);
   ("wlRekey" ++ radio rs, re_key rs);
   ("wlChannel" ++ radio rs, channel rs);
   ("wlSecurity" ++ radio rs, security rs);
   ("wlWpaalg" ++ radio rs, wpa_algorithm rs)].

(** Two lists taken in turns, item by item. *)
Fixpoint in_turns {A} (l1 l2 : list A) : list A :=
  match l1, l2 with
  | x :: l1', y :: l2' => x :: y :: in_turns l1' l2'
  | _, _ => []
  end.

(** Sample settings for the worked instances. *)
Definition sample_band (name : string) (ssid_ : string) : BandSetting :=
  {| mode := true; ssid := VStr ssid_; bss_enable := VInt 1; radio := name;
     bandwidth := VInt 2; tx_mode := VInt 6; multicast_rate := VInt 1;
     hidden := 2; pre_shared_key := VStr "secret"; tx_rate := VInt 0;
     re_key := VInt 0; channel := VInt 11; security := VInt 8;
     wpa_algorithm := VInt 2 |}.

Definition sample_radio_settings : RadioSettings :=
  {| bss_coexistence := VInt 1;
     radio_2g := sample_band "2g" "home";
     radio_5g := sample_band "5g" "home-5g";
     nv_country := 1; channel_range := 3 |}.

Definition sample_rule (n : Z) (p : Proto) (on : bool) : PortForward :=
  {| local_ip := "192.168.178.17"; ext_port := (8080, 8080);
     int_port := (80, 80); proto := p; enabled := on; delete_ := false;
     idd := Some false; id_ := Some n; lan_ip := Some "192.168.178.1" |}.

(** The cookie jar after one request: the answer's cookies are added to it
    when the device answers and the response hook lets the answer through;
    otherwise it is the jar as it was. *)
Definition jar_after (c : Compal) : gmap string string :=
  match wire c with
  | Answers r :: _ =>
      if hook_completes r then cookies r ∪ session_cookies c
      else session_cookies c
  | _ => session_cookies c
  end.

(** * Properties *)

(** A closed decidable proposition, settled by evaluating its decision. *)
Ltac by_decide :=
  lazymatch goal with
  | |- ?P => apply (@bool_decide_unpack P _); vm_compute; exact I
  end.

(** ** Dictionaries *)

Lemma dict_contains_elem k (d : dict) :
  dict_contains k d = true ↔ k ∈ keys d.
Proof.
  unfold keys. induction d as [|[k' v'] d IH]; simpl.
  - split; [discriminate | intros H; inversion H].
  - case_decide; subst.
    + split; [intros _; left | done].
    + rewrite IH, elem_of_cons. split; [by right | by intros [?|?]].
Qed.

Lemma dict_contains_false k (d : dict) :
  dict_contains k d = false ↔ k ∉ keys d.
Proof.
  rewrite <- dict_contains_elem. destruct (dict_contains k d); naive_solver.
Qed.

Lemma dict_get_None k (d : dict) :
  dict_get k d = None ↔ k ∉ keys d.
Proof.
  unfold keys. induction d as [|[k' v'] d IH]; simpl.
  - split; [intros _ H; inversion H | done].
  - case_decide; subst.
    + split; [discriminate | intros H; destruct H; left].
    + rewrite IH, not_elem_of_cons. split; [by split | by intros [_ ?]].
Qed.

Lemma dict_contains_setitem k v (d : dict) :
  dict_contains k (dict_setitem k v d) = true.
Proof.
  induction d as [|[k' v'] d IH]; simpl.
  - by rewrite decide_True.
  - case_decide; simpl; [by rewrite decide_True | by rewrite decide_False].
Qed.

Lemma dict_get_setitem k v (d : dict) :
  dict_get k (dict_setitem k v d) = Some v.
Proof.
  induction d as [|[k' v'] d IH]; simpl.
  - by rewrite decide_True.
  - case_decide; simpl; [by rewrite decide_True | by rewrite decide_False].
Qed.

Lemma filter_absent_key k (d : dict) :
  k ∉ keys d → filter (λ kv, kv.1 ≠ k) d = d.
Proof.
  unfold keys. induction d as [|[k' v'] d IH]; [done|].
  simpl. rewrite not_elem_of_cons. intros [Hne Hd].
  rewrite filter_cons_True by (simpl; congruence). by rewrite IH.
Qed.

(** On a dictionary, removing a key removes every item under that key. *)
Lemma dict_remove_filter k (d : dict) :
  NoDup (keys d) → dict_remove k d = filter (λ kv, kv.1 ≠ k) d.
Proof.
  unfold keys. induction d as [|[k' v'] d IH]; [done|].
  simpl. rewrite NoDup_cons. intros [Hk Hd]. case_decide; subst.
  - rewrite filter_cons_False by (simpl; tauto).
    by rewrite filter_absent_key.
  - rewrite filter_cons_True by done. by rewrite IH.
Qed.

Lemma dict_remove_setitem k v (d : dict) :
  NoDup (keys d) →
  dict_remove k (dict_setitem k v d) = filter (λ kv, kv.1 ≠ k) d.
Proof.
  unfold keys. induction d as [|[k' v'] d IH]; simpl.
  - by rewrite decide_True.
  - rewrite NoDup_cons. intros [Hk Hd]. case_decide; subst; simpl.
    + rewrite decide_True by done.
      rewrite filter_cons_False by (simpl; tauto).
      by rewrite filter_absent_key.
    + rewrite decide_False by done.
      rewrite filter_cons_True by done. by rewrite IH.
Qed.

Lemma dict_remove_absent k (d : dict) :
  k ∉ keys d → dict_remove k d = d.
Proof.
  unfold keys. induction d as [|[k' v'] d IH]; [done|].
  simpl. rewrite not_elem_of_cons. intros [Hne Hd].
  rewrite decide_False by done. by rewrite IH.
Qed.

Lemma dict_setitem_fresh k v (d : dict) :
  k ∉ keys d → dict_setitem k v d = (d ++ [(k, v)])%list.
Proof.
  unfold keys. induction d as [|[k' v'] d IH]; [done|].
  simpl. rewrite not_elem_of_cons. intros [Hne Hd].
  rewrite decide_False by done. by rewrite IH.
Qed.

(** Updating with a dictionary whose keys are all new appends its items. *)
Lemma dict_update_fresh (d other : dict) :
  NoDup (keys other) →
  (∀ k, k ∈ keys other → k ∉ keys d) →
  dict_update d other = (d ++ other)%list.
Proof.
  unfold dict_update, keys.
  revert d. induction other as [|[k v] other IH]; intros d Hnd Hfresh; simpl.
  - by rewrite app_nil_r.
  - simpl in Hnd. apply NoDup_cons in Hnd as [Hk Hnd].
    rewrite dict_setitem_fresh by (apply Hfresh; left).
    rewrite IH; [by rewrite <- app_assoc | done |].
    intros k' Hk'. rewrite fmap_app, elem_of_app. simpl.
    intros [Hin | Hin].
    + by apply (Hfresh k'); [right|].
    + apply list_elem_of_singleton in Hin. by subst.
Qed.

Lemma keys_filter_ne k (d : dict) :
  k ∉ keys (filter (λ kv, kv.1 ≠ k) d).
Proof.
  unfold keys. intros H. apply list_elem_of_fmap in H as [[k' v'] [-> H]].
  apply list_elem_of_filter in H as [H _]. by apply H.
Qed.

Lemma NoDup_keys_filter (P : string * value → Prop) `{∀ x, Decision (P x)}
    (d : dict) :
  NoDup (keys d) → NoDup (keys (filter P d)).
Proof.
  unfold keys. induction d as [|kv d IH]; [done|].
  simpl. rewrite NoDup_cons. intros [Hk Hd].
  destruct (decide (P kv)).
  - rewrite filter_cons_True by done. simpl. apply NoDup_cons. split; [|auto].
    intros Hin. apply Hk. apply list_elem_of_fmap in Hin as [y [-> Hy]].
    apply list_elem_of_filter in Hy as [_ Hy].
    apply list_elem_of_fmap. by exists y.
  - rewrite filter_cons_False by done. auto.
Qed.

Lemma dict_get_filter_ne k k' (d : dict) :
  k' ≠ k → dict_get k' (filter (λ kv, kv.1 ≠ k) d) = dict_get k' d.
Proof.
  intros Hne. induction d as [|[k1 v1] d IH]; [done|].
  destruct (decide (k1 = k)) as [->|Hk1].
  - rewrite filter_cons_False by (simpl; tauto).
    simpl. by rewrite decide_False.
  - rewrite filter_cons_True by done. simpl. by rewrite IH.
Qed.

(** ** The token interceptor *)

Lemma token_handler_completes r c :
  hook_completes r = true →
  token_handler r c = (Ok tt, set_session_token (cookies r !! "sessionToken") c).
Proof.
  unfold hook_completes, token_handler, mbind, py_bind, modify, ret, mret, py_ret.
  destruct (status_code r =? 302)%Z; [|done].
  intros [v Hv]%bool_decide_eq_true. by rewrite Hv.
Qed.

(** C1 as the specification has it fails: a response without a
    [sessionToken] cookie resets the stored token to [None]. *)
Lemma token_reset_by_cookieless_response :
  ¬ (∀ (res : Response) (c : Compal),
       cookies res !! "sessionToken" = None →
       session_token (token_handler res c).2 = session_token c).
Proof.
  intros H.
  specialize (H {| status_code := 200; text := "<ok/>";
                   cookies := ∅; headers := ∅ |}
                {| router_ip := "192.168.178.1"; timeout := 10; key := None;
                   session_token := Some "1477088029";
                   session_cookies := ∅; objects := []; wire := [];
                   sent := [] |}).
  vm_compute in H. by specialize (H eq_refl).
Qed.

(** C1, amended: after the interceptor has processed a response, the stored
    token is what [cookies.get('sessionToken')] gives for that response: the
    cookie's value when the cookie is there, [None] when it is not. *)
Theorem token_handler_stores_cookie (res : Response) (c : Compal) :
  session_token (token_handler res c).2 = cookies res !! "sessionToken".
Proof.
  unfold token_handler, mbind, py_bind, modify. simpl.
  destruct (status_code res =? 302)%Z; [|done].
  by destruct (headers res !! "Location").
Qed.

(** ** The transport *)

Ltac py_unfold :=
  unfold deref, store, alloc, url;
  unfold mbind, py_bind, ret, mret, py_ret, gets, modify, raise.

Lemma session_post_answers rq c r w :
  wire c = Answers r :: w →
  hook_completes r = true →
  session_post rq c
  = (Ok r, set_session_cookies (cookies r ∪ session_cookies c)
             (set_session_token (cookies r !! "sessionToken")
                (exchange w rq c))).
Proof.
  intros Hw Hr. unfold session_post. rewrite Hw.
  unfold mbind, py_bind. by rewrite token_handler_completes.
Qed.

Lemma session_post_fails rq c e w :
  wire c = Fails e :: w → session_post rq c = (Raise e, exchange w rq c).
Proof. intros Hw. unfold session_post. by rewrite Hw. Qed.

(** Whatever the outcome, the request is logged and nothing else is. *)
Lemma session_post_sent rq c :
  sent (session_post rq c).2 = (sent c ++ [rq])%list.
Proof.
  unfold session_post. destruct (wire c) as [|[r|e] w]; [done| |done].
  unfold token_handler. py_unfold. simpl.
  destruct (status_code r =? 302)%Z; [|done].
  by destruct (headers r !! "Location").
Qed.

Lemma session_post_objects rq c :
  objects (session_post rq c).2 = objects c.
Proof.
  unfold session_post. destruct (wire c) as [|[r|e] w]; [done| |done].
  unfold token_handler. py_unfold. simpl.
  destruct (status_code r =? 302)%Z; [|done].
  by destruct (headers r !! "Location").
Qed.

Lemma set_objects_id c : set_objects (objects c) c = c.
Proof. by destruct c. Qed.

(** [post] in one step: the caller's dictionary loses its ['fun'] item and
    the request carries the token, the popped ['fun'] and the update. *)
Lemma post_eq path l d c :
  objects c !! l = Some d →
  post path l c
  = session_post
      (post_request c path (post_fields (token_value (session_token c)) d))
      (set_objects (<[l := dict_remove "fun" d]> (objects c)) c).
Proof.
  intros Hl. unfold post, post_fields, fun_field. py_unfold. cbv beta. rewrite Hl.
  change (default [] (Some d)) with d.
  destruct (dict_contains "fun" d) eqn:Hc.
  - destruct (dict_get "fun" d) as [v|] eqn:Hg.
    2:{ apply dict_get_None in Hg. apply dict_contains_elem in Hc. done. }
    cbv beta iota. simpl objects.
    rewrite list_lookup_insert_eq by (by eapply lookup_lt_Some).
    reflexivity.
  - apply dict_contains_false in Hc.
    rewrite (proj2 (dict_get_None _ _) Hc).
    rewrite dict_remove_absent by done.
    rewrite list_insert_id by done. rewrite set_objects_id.
    cbv beta iota. rewrite Hl. reflexivity.
Qed.

Lemma fun_field_setitem f (d : dict) :
  fun_field (dict_setitem "fun" f d) = [("fun", f)].
Proof. unfold fun_field. by rewrite dict_get_setitem. Qed.

Lemma keys_fun_field k (d : dict) : k ∈ keys (fun_field d) → k = "fun".
Proof.
  unfold fun_field. destruct (dict_get "fun" d); simpl; [|by inversion 1].
  by intros ->%list_elem_of_singleton.
Qed.

(** Without a ['token'] item among the caller's, [post] builds the fields
    in the specified order. *)
Lemma post_fields_ordered tok (d : dict) :
  NoDup (keys d) → "token" ∉ keys d →
  post_fields tok d = ordered_fields tok d.
Proof.
  intros Hnd Htok. unfold post_fields, ordered_fields.
  rewrite dict_remove_filter by done.
  rewrite dict_update_fresh; [done | by apply NoDup_keys_filter |].
  intros k Hk. unfold keys. simpl. rewrite not_elem_of_cons. split.
  - intros ->. apply Htok.
    apply list_elem_of_fmap in Hk as [kv [-> Hkv]].
    apply list_elem_of_filter in Hkv as [_ Hkv].
    apply list_elem_of_fmap. by exists kv.
  - intros Hf%keys_fun_field. subst. by apply keys_filter_ne in Hk.
Qed.

(** The two primitives write ['fun'] into the caller's dictionary and
    call [post]. *)
Lemma xml_getter_eq f l d c :
  objects c !! l = Some d →
  xml_getter f l c
  = post "/xml/getter.xml" l
      (set_objects (<[l := dict_setitem "fun" f d]> (objects c)) c).
Proof. intros Hl. unfold xml_getter. py_unfold. cbv beta. by rewrite Hl. Qed.

Lemma xml_setter_eq f l d c :
  objects c !! l = Some d →
  xml_setter f (Some l) c
  = post "/xml/setter.xml" l
      (set_objects (<[l := dict_setitem "fun" f d]> (objects c)) c).
Proof. intros Hl. unfold xml_setter. py_unfold. cbv beta. by rewrite Hl. Qed.

(** One call of a primitive, down to the transport. *)
Lemma rpc_post_eq path f l d c :
  objects c !! l = Some d →
  NoDup (keys d) →
  post path l (set_objects (<[l := dict_setitem "fun" f d]> (objects c)) c)
  = session_post
      (post_request c path
         (dict_update [("token", token_value (session_token c)); ("fun", f)]
                      (filter (λ kv, kv.1 ≠ "fun") d)))
      (set_objects (<[l := filter (λ kv, kv.1 ≠ "fun") d]> (objects c)) c).
Proof.
  intros Hl Hnd.
  rewrite (post_eq path l (dict_setitem "fun" f d)).
  2:{ simpl. apply list_lookup_insert_eq. by eapply lookup_lt_Some. }
  unfold post_fields. rewrite fun_field_setitem, dict_remove_setitem by done.
  simpl objects. rewrite list_insert_insert_eq. reflexivity.
Qed.

(** ** Field order of a POST *)

(** C3 as the specification has it fails: a ['token'] item of the caller
    overwrites the session token in the first field and is not sent again
    among the remaining fields. *)
Lemma post_caller_token_overrides :
  ¬ (∀ (path : string) (l : loc) (d : dict) (c : Compal),
       objects c !! l = Some d →
       NoDup (keys d) →
       sent (post path l c).2
       = (sent c ++ [post_request c path
                       (ordered_fields (token_value (session_token c)) d)])%list).
Proof.
  intros H.
  specialize (H "/xml/setter.xml" 0%nat
                [("token", VStr "0"); ("lang", VStr "en")]
                (sample_modem (Some "1477088029")
                   [[("token", VStr "0"); ("lang", VStr "en")]] [])
                eq_refl).
  assert (Hnd : NoDup (keys [("token", VStr "0"); ("lang", VStr "en")])).
  { by_decide. }
  specialize (H Hnd). vm_compute in H. discriminate H.
Qed.

(** C3, amended: for every call [post(path, data)] whose [data] holds no
    ['token'] item, the ordered field list that [post] hands to the session
    (the [data] argument of [session.post], from which the body is then
    serialized) is: the current session token ([None] when none is stored),
    the caller's ['fun'] if there is one, the caller's other items in the
    caller's order; and the request is issued with
    [allow_redirects=False]. *)
Theorem post_field_order (path : string) (l : loc) (d : dict) (c : Compal) :
  objects c !! l = Some d →
  NoDup (keys d) →
  "token" ∉ keys d →
  ∃ rq,
    sent (post path l c).2 = (sent c ++ [rq])%list
    ∧ rq_data rq
      = Form (("token", token_value (session_token c))
                :: fun_field d ++ filter (λ kv, kv.1 ≠ "fun") d)%list
    ∧ rq_allow_redirects rq = Some false.
Proof.
  intros Hl Hnd Htok.
  exists (post_request c path (ordered_fields (token_value (session_token c)) d)).
  split; [|done].
  rewrite (post_eq path l d) by done.
  rewrite session_post_sent. simpl sent.
  by rewrite post_fields_ordered.
Qed.

Lemma post_field_order_witness :
  ∃ rq,
    sent (post "/xml/setter.xml" 0%nat
            (sample_modem (Some "1477088029")
               [[("lang", VStr "en"); ("fun", VInt 4); ("iv", VInt 1)]] [])).2
    = [rq]
    ∧ rq_data rq
      = Form [("token", VStr "1477088029"); ("fun", VInt 4);
              ("lang", VStr "en"); ("iv", VInt 1)]
    ∧ rq_allow_redirects rq = Some false.
Proof.
  apply (post_field_order "/xml/setter.xml" 0%nat
           [("lang", VStr "en"); ("fun", VInt 4); ("iv", VInt 1)]).
  - reflexivity.
  - by_decide.
  - by_decide.
Defined.

(** ** The RPC primitives *)

(** C9: [xml_setter] called without a params container raises before any
    request is made and leaves the state as it was; called with a params
    container, an empty one included, it hands exactly one request to the
    session, a POST to the setter endpoint. *)
Theorem xml_setter_needs_params (f : value) (c : Compal) :
  (∃ msg, xml_setter f None c = (Raise (TypeError msg), c))
  ∧ (∀ (p : loc) (d : dict),
       objects c !! p = Some d →
       ∃ rq,
         sent (xml_setter f (Some p) c).2 = (sent c ++ [rq])%list
         ∧ rq_url rq = "http://" ++ router_ip c ++ "/xml/setter.xml").
Proof.
  split; [by eexists|].
  intros p d Hp.
  rewrite (xml_setter_eq f p d) by done.
  erewrite post_eq.
  2:{ simpl. apply list_lookup_insert_eq. by eapply lookup_lt_Some. }
  rewrite session_post_sent. by eexists.
Qed.

Lemma xml_setter_needs_params_witness :
  (∃ msg, xml_setter (VInt 16) None (sample_modem (Some "7") [[]] [])
          = (Raise (TypeError msg), sample_modem (Some "7") [[]] []))
  ∧ (∃ rq,
       sent (xml_setter (VInt 16) (Some 0%nat)
               (sample_modem (Some "7") [[]] [])).2 = [rq]
       ∧ rq_url rq = "http://192.168.178.1/xml/setter.xml").
Proof.
  destruct (xml_setter_needs_params (VInt 16) (sample_modem (Some "7") [[]] []))
    as [Hnone Hsome].
  split; [exact Hnone|].
  exact (Hsome 0%nat [] eq_refl).
Defined.

(** C10: [xml_getter] and [xml_setter] change the caller's params
    dictionary in place.  When the call is over, whether it returned or
    raised, that dictionary has no ['fun'] item (one the caller had put
    there is gone) and its other items are as they were, in their order. *)
Theorem rpc_strips_fun_from_params (f : value) (l : loc) (d : dict) (c : Compal) :
  objects c !! l = Some d →
  NoDup (keys d) →
  ∃ d',
    objects (xml_getter f l c).2 !! l = Some d'
    ∧ objects (xml_setter f (Some l) c).2 !! l = Some d'
    ∧ ("fun" ∉ keys d')
    ∧ d' = filter (λ kv, kv.1 ≠ "fun") d
    ∧ (∀ k, k ≠ "fun" → dict_get k d' = dict_get k d).
Proof.
  intros Hl Hnd. exists (filter (λ kv, kv.1 ≠ "fun") d).
  assert (Hlt : (l < length (objects c))%nat) by by eapply lookup_lt_Some.
  rewrite (xml_getter_eq f l d), (xml_setter_eq f l d) by done.
  rewrite !rpc_post_eq, !session_post_objects by done. simpl objects.
  rewrite list_lookup_insert_eq by done.
  split_and!; [done | done | apply keys_filter_ne | done |].
  intros k Hk. by apply dict_get_filter_ne.
Qed.

Lemma rpc_strips_fun_from_params_witness :
  ∃ d',
    objects (xml_getter (VInt 2) 0%nat
               (sample_modem None [[("fun", VInt 9); ("lang", VStr "en")]] [])).2
      !! 0%nat = Some d'
    ∧ objects (xml_setter (VInt 2) (Some 0%nat)
                 (sample_modem None [[("fun", VInt 9); ("lang", VStr "en")]] [])).2
        !! 0%nat = Some d'
    ∧ ("fun" ∉ keys d')
    ∧ d' = filter (λ kv, kv.1 ≠ "fun") [("fun", VInt 9); ("lang", VStr "en")]
    ∧ (∀ k, k ≠ "fun" →
            dict_get k d' = dict_get k [("fun", VInt 9); ("lang", VStr "en")]).
Proof.
  apply (rpc_strips_fun_from_params (VInt 2) 0%nat
           [("fun", VInt 9); ("lang", VStr "en")]).
  - reflexivity.
  - by_decide.
Defined.

(** A primitive called on a dictionary made for the call. *)
Lemma rpc_fresh_fields tok f (d : dict) :
  NoDup (keys d) → "token" ∉ keys d → "fun" ∉ keys d →
  dict_update [("token", tok); ("fun", f)] (filter (λ kv, kv.1 ≠ "fun") d)
  = (("token", tok) :: ("fun", f) :: d)%list.
Proof.
  intros Hnd Htok Hfun. rewrite filter_absent_key by done.
  rewrite dict_update_fresh; [done..|].
  intros k Hk. unfold keys. simpl. rewrite !not_elem_of_cons.
  split_and!; [by intros -> | by intros -> | by inversion 1].
Qed.

Lemma post_at_fresh path f (d : dict) c :
  NoDup (keys d) → "token" ∉ keys d → "fun" ∉ keys d →
  post path (length (objects c))
    (set_objects (<[length (objects c) := dict_setitem "fun" f d]>
                    (objects c ++ [d])%list)
       (set_objects (objects c ++ [d])%list c))
  = session_post
      (post_request c path
         (("token", token_value (session_token c)) :: ("fun", f) :: d)%list)
      (set_objects (objects c ++ [d])%list c).
Proof.
  intros Hnd Htok Hfun.
  pose proof (rpc_post_eq path f (length (objects c)) d
                (set_objects (objects c ++ [d])%list c)) as H.
  simpl in H. etrans; [apply H; [by apply list_lookup_middle | done]|].
  rewrite rpc_fresh_fields by done.
  rewrite filter_absent_key by done.
  rewrite list_insert_id by by apply list_lookup_middle.
  reflexivity.
Qed.

Lemma xml_setter_fresh f (d : dict) c :
  NoDup (keys d) → "token" ∉ keys d → "fun" ∉ keys d →
  xml_setter f (Some (length (objects c))) (set_objects (objects c ++ [d])%list c)
  = session_post
      (post_request c "/xml/setter.xml"
         (("token", token_value (session_token c)) :: ("fun", f) :: d)%list)
      (set_objects (objects c ++ [d])%list c).
Proof.
  intros Hnd Htok Hfun.
  rewrite (xml_setter_eq f _ d) by by apply list_lookup_middle.
  simpl objects. by apply post_at_fresh.
Qed.

Lemma xml_getter_fresh f (d : dict) c :
  NoDup (keys d) → "token" ∉ keys d → "fun" ∉ keys d →
  xml_getter f (length (objects c)) (set_objects (objects c ++ [d])%list c)
  = session_post
      (post_request c "/xml/getter.xml"
         (("token", token_value (session_token c)) :: ("fun", f) :: d)%list)
      (set_objects (objects c ++ [d])%list c).
Proof.
  intros Hnd Htok Hfun.
  rewrite (xml_getter_eq f _ d) by by apply list_lookup_middle.
  simpl objects. by apply post_at_fresh.
Qed.

Lemma session_post_answered rq c r w :
  wire c = Answers r :: w →
  hook_completes r = true →
  session_post rq c = (Ok r, answered r w rq c).
Proof. apply session_post_answers. Qed.

(** A [302] without [Location] makes the hook raise out of the request. *)
Lemma session_post_hook_raises rq c r w :
  wire c = Answers r :: w →
  hook_completes r = false →
  session_post rq c = (Raise (KeyError "location"), intercepted r w rq c).
Proof.
  intros Hw Hr. unfold session_post. rewrite Hw.
  unfold token_handler, hook_completes in *. py_unfold. cbv beta iota.
  destruct (status_code r =? 302)%Z; [|done].
  destruct (headers r !! "Location") eqn:Hh; [|done].
  by rewrite bool_decide_eq_false in Hr; destruct Hr.
Qed.

Lemma hook_completes_not_302 r :
  status_code r ≠ 302 → hook_completes r = true.
Proof.
  intros H. unfold hook_completes.
  by destruct (Z.eqb_spec (status_code r) 302).
Qed.

(** ** Login *)

Section LoginProperties.

Variable Set_LOGIN : value.
Variable parse_qs : string → gmap string (list string).

Lemma login_params_fresh k c :
  NoDup (keys (login_params k c))
  ∧ ("token" ∉ keys (login_params k c))
  ∧ ("fun" ∉ keys (login_params k c)).
Proof. unfold login_params, keys. simpl. split_and!; by_decide. Qed.

(** [login] up to the point where the response is in. *)
Lemma login_eq k c :
  login Set_LOGIN parse_qs k c
  = match session_post (login_request Set_LOGIN k c)
            (set_objects (objects c ++ [login_params k c])%list c) with
    | (Ok res, c') =>
        if negb (status_code res =? 200)%Z then
          match headers res !! "Location" with
          | None => (Raise (KeyError "location"), c')
          | Some l =>
              if endswith l "common_page/Access-denied.html"
              then (Raise (ValueError
                             "Access denied. Still logged in somewhere else?"), c')
              else (Raise (ValueError "Login failed for unknown reason!"), c')
          end
        else
          match parse_qs (text res) !! "SID" with
          | None | Some [] =>
              (Raise (ValueError
                        "No valid session-Id received! Wrong password?"), c')
          | Some (token_sid :: _) =>
              (Ok res, set_session_cookies
                         (<["SID" := token_sid]> (session_cookies c')) c')
          end
    | (Raise e, c') => (Raise e, c')
    end.
Proof.
  destruct (login_params_fresh k c) as (Hnd & Htok & Hfun).
  unfold login. py_unfold. cbv beta iota.
  change [("Username", VStr "admin");
          ("Password", login_password k (key c))] with (login_params k c).
  rewrite xml_setter_fresh by done.
  change (post_request c "/xml/setter.xml" _) with (login_request Set_LOGIN k c).
  destruct (session_post _ _) as [[res|e] c']; [|done].
  destruct (negb _).
  - destruct (headers res !! "Location"); [|done]. by destruct (endswith _ _).
  - by destruct (parse_qs (text res) !! "SID") as [[|sid ?]|].
Qed.

(** A refused login that redirects to the access-denied page. *)
Lemma login_access_denied k c r w l :
  wire c = Answers r :: w →
  hook_completes r = true →
  status_code r ≠ 200 →
  headers r !! "Location" = Some l →
  endswith l "common_page/Access-denied.html" = true →
  (login Set_LOGIN parse_qs k c).1
  = Raise (ValueError "Access denied. Still logged in somewhere else?").
Proof.
  intros Hw Hh Hs Hl He. rewrite login_eq.
  erewrite session_post_answered by done.
  destruct (Z.eqb_spec (status_code r) 200); [done|]. simpl negb. cbv iota.
  by rewrite Hl, He.
Qed.

(** A refused login with any other [Location]. *)
Lemma login_unknown_failure k c r w l :
  wire c = Answers r :: w →
  hook_completes r = true →
  status_code r ≠ 200 →
  headers r !! "Location" = Some l →
  endswith l "common_page/Access-denied.html" = false →
  (login Set_LOGIN parse_qs k c).1
  = Raise (ValueError "Login failed for unknown reason!").
Proof.
  intros Hw Hh Hs Hl He. rewrite login_eq.
  erewrite session_post_answered by done.
  destruct (Z.eqb_spec (status_code r) 200); [done|]. simpl negb. cbv iota.
  by rewrite Hl, He.
Qed.

(** A [200] whose body yields no [SID]. *)
Lemma login_invalid_credentials k c r w :
  wire c = Answers r :: w →
  status_code r = 200 →
  parse_qs (text r) !! "SID" = None ∨ parse_qs (text r) !! "SID" = Some [] →
  (login Set_LOGIN parse_qs k c).1
  = Raise (ValueError "No valid session-Id received! Wrong password?").
Proof.
  intros Hw Hs Hq. rewrite login_eq.
  erewrite session_post_answered;
    [|done|apply hook_completes_not_302; by rewrite Hs].
  rewrite Hs. simpl negb. cbv iota. by destruct Hq as [-> | ->].
Qed.

(** A [200] whose body yields a [SID]: the cookie is installed, next to
    the cookies of the answer, and the response returned. *)
Lemma login_success k c r w sid sids :
  wire c = Answers r :: w →
  status_code r = 200 →
  parse_qs (text r) !! "SID" = Some (sid :: sids) →
  (login Set_LOGIN parse_qs k c).1 = Ok r
  ∧ session_cookies (login Set_LOGIN parse_qs k c).2
    = <["SID" := sid]> (cookies r ∪ session_cookies c).
Proof.
  intros Hw Hs Hq. rewrite login_eq.
  erewrite session_post_answered;
    [|done|apply hook_completes_not_302; by rewrite Hs].
  rewrite Hs. simpl negb. cbv iota. by rewrite Hq.
Qed.

(** C4, where the code departs from it: a response to the login request
    that is not a [200] and has no [Location] header makes [login] raise
    [KeyError], not the [ValueError] of an unknown login failure. *)
Theorem login_non200_without_location (k : option string) (c : Compal)
    (r : Response) (w : list outcome) :
  wire c = Answers r :: w →
  status_code r ≠ 200 →
  headers r !! "Location" = None →
  (login Set_LOGIN parse_qs k c).1 = Raise (KeyError "location")
  ∧ (login Set_LOGIN parse_qs k c).1
    ≠ Raise (ValueError "Login failed for unknown reason!").
Proof.
  intros Hw Hs Hl.
  assert ((login Set_LOGIN parse_qs k c).1 = Raise (KeyError "location")) as ->;
    [|done].
  rewrite login_eq.
  destruct (hook_completes r) eqn:Hh.
  - erewrite session_post_answered by done.
    destruct (Z.eqb_spec (status_code r) 200); [done|]. simpl negb. cbv iota.
    by rewrite Hl.
  - erewrite session_post_hook_raises by done. done.
Qed.

End LoginProperties.

Lemma login_non200_without_location_witness :
  (login (VInt 15) sample_parse_qs None
     (sample_modem (Some "1477088029") []
        [Answers (sample_response 500 "" None None)])).1
  = Raise (KeyError "location")
  ∧ (login (VInt 15) sample_parse_qs None
       (sample_modem (Some "1477088029") []
          [Answers (sample_response 500 "" None None)])).1
    ≠ Raise (ValueError "Login failed for unknown reason!").
Proof.
  apply (login_non200_without_location (VInt 15) sample_parse_qs None
           (sample_modem (Some "1477088029") []
              [Answers (sample_response 500 "" None None)])
           (sample_response 500 "" None None) []).
  - reflexivity.
  - vm_compute. discriminate.
  - reflexivity.
Defined.

(** The worked instance of the specification: a body with [SID=abc123]. *)
Example login_installs_SID_abc123 :
  let c := sample_modem (Some "1477088029") []
             [Answers (sample_response 200 "successful&SID=abc123"
                         (Some "2056907276") None)] in
  session_cookies (login (VInt 15) sample_parse_qs None c).2 !! "SID"
  = Some "abc123".
Proof. vm_compute. reflexivity. Qed.

(** ** Reboot and factory reset *)

Lemma empty_params_fresh :
  NoDup (keys []) ∧ ("token" ∉ keys []) ∧ ("fun" ∉ keys []).
Proof. unfold keys. simpl. split_and!; [constructor | inversion 1 ..]. Qed.

Lemma xml_setter_empty f c :
  xml_setter f (Some (length (objects c))) (set_objects (objects c ++ [[]])%list c)
  = session_post (setter_request f c) (set_objects (objects c ++ [[]])%list c).
Proof.
  destruct empty_params_fresh as (? & ? & ?). by apply xml_setter_fresh.
Qed.

Lemma xml_getter_empty f c :
  xml_getter f (length (objects c)) (set_objects (objects c ++ [[]])%list c)
  = session_post (getter_request f c) (set_objects (objects c ++ [[]])%list c).
Proof.
  destruct empty_params_fresh as (? & ? & ?). by apply xml_getter_fresh.
Qed.

Section LifecycleProperties.

Variable Set_REBOOT Set_FACTORY_RESET Get_DEFAULTVALUE : value.

Lemma reboot_eq c :
  reboot Set_REBOOT c
  = match session_post (setter_request Set_REBOOT c)
            (set_objects (objects c ++ [[]])%list c) with
    | (Ok res, c') => (Ok (Some res), c')
    | (Raise ReadTimeout, c') => (Ok None, c')
    | (Raise e, c') => (Raise e, c')
    end.
Proof.
  unfold reboot, try_except_ReadTimeout. py_unfold. cbv beta iota.
  rewrite xml_setter_empty.
  by destruct (session_post _ _) as [[res|[]] c'].
Qed.

Lemma factory_reset_eq c :
  factory_reset Set_FACTORY_RESET Get_DEFAULTVALUE c
  = match session_post (getter_request Get_DEFAULTVALUE c)
            (set_objects (objects c ++ [[]])%list c) with
    | (Ok default_settings, c1) =>
        match session_post (setter_request Set_FACTORY_RESET c1)
                (set_objects (objects c1 ++ [[]])%list c1) with
        | (Ok _, c2) | (Raise ReadTimeout, c2) => (Ok default_settings, c2)
        | (Raise e, c2) => (Raise e, c2)
        end
    | (Raise e, c1) => (Raise e, c1)
    end.
Proof.
  unfold factory_reset, try_except_ReadTimeout. py_unfold. cbv beta iota.
  rewrite xml_getter_empty.
  destruct (session_post _ _) as [[res|e] c1]; [|done].
  rewrite xml_setter_empty.
  by destruct (session_post _ _) as [[res'|[]] c2].
Qed.

(** C6: a read-timeout raised by the setter call of [reboot] is turned into
    the result [None]; any other failure of that call is raised to the
    caller.  In [factory_reset] a read-timeout of the reset call is passed
    over as well and the snapshot is returned; any other failure of the
    reset call is raised. *)
Theorem timeout_tolerated_by_reboot_and_reset (c : Compal) :
  (∀ w, wire c = Fails ReadTimeout :: w →
        (reboot Set_REBOOT c).1 = Ok None)
  ∧ (∀ e w, wire c = Fails e :: w → e ≠ ReadTimeout →
            (reboot Set_REBOOT c).1 = Raise e)
  ∧ (wire c = [] →
     (reboot Set_REBOOT c).1 = Raise (RequestException "ConnectionError"))
  ∧ (∀ r w, wire c = Answers r :: Fails ReadTimeout :: w →
            hook_completes r = true →
            (factory_reset Set_FACTORY_RESET Get_DEFAULTVALUE c).1 = Ok r)
  ∧ (∀ r e w, wire c = Answers r :: Fails e :: w →
              hook_completes r = true → e ≠ ReadTimeout →
              (factory_reset Set_FACTORY_RESET Get_DEFAULTVALUE c).1 = Raise e).
Proof.
  split_and!.
  - intros w Hw. rewrite reboot_eq. erewrite session_post_fails by done. done.
  - intros e w Hw He. rewrite reboot_eq. erewrite session_post_fails by done.
    by destruct e.
  - intros Hw. rewrite reboot_eq. unfold session_post. simpl wire. by rewrite Hw.
  - intros r w Hw Hr. rewrite factory_reset_eq.
    erewrite session_post_answered by done.
    erewrite session_post_fails by done. done.
  - intros r e w Hw Hr He. rewrite factory_reset_eq.
    erewrite session_post_answered by done.
    erewrite session_post_fails by done. by destruct e.
Qed.

(** C7: the first request of [factory_reset] is the getter call for the
    default values, and when that call fails nothing else is sent.  When it
    is answered, the reset setter call follows it as the second and last
    request, and the answer to the getter call is what [factory_reset]
    returns, be the reset call answered or cut off by a read-timeout. *)
Theorem factory_reset_snapshot_first (c : Compal) :
  (∃ later,
     sent (factory_reset Set_FACTORY_RESET Get_DEFAULTVALUE c).2
     = (sent c ++ getter_request Get_DEFAULTVALUE c :: later)%list)
  ∧ (∀ e w, wire c = Fails e :: w →
       factory_reset Set_FACTORY_RESET Get_DEFAULTVALUE c
       = (Raise e, exchange w (getter_request Get_DEFAULTVALUE c)
                     (set_objects (objects c ++ [[]])%list c)))
  ∧ (∀ r o w, wire c = Answers r :: o :: w →
       hook_completes r = true →
       (o = Fails ReadTimeout
        ∨ ∃ r', o = Answers r' ∧ hook_completes r' = true) →
       (factory_reset Set_FACTORY_RESET Get_DEFAULTVALUE c).1 = Ok r
       ∧ sent (factory_reset Set_FACTORY_RESET Get_DEFAULTVALUE c).2
         = (sent c ++
              [getter_request Get_DEFAULTVALUE c;
               post_request c "/xml/setter.xml"
                 [("token", token_value (cookies r !! "sessionToken"));
                  ("fun", Set_FACTORY_RESET)]])%list).
Proof.
  split_and!.
  - rewrite factory_reset_eq.
    destruct (session_post (getter_request _ _) _) as [[ds|e] c1] eqn:Hg.
    + pose proof (session_post_sent (getter_request Get_DEFAULTVALUE c)
                    (set_objects (objects c ++ [[]])%list c)) as Hs.
      rewrite Hg in Hs. simpl in Hs.
      exists [setter_request Set_FACTORY_RESET c1].
      pose proof (session_post_sent (setter_request Set_FACTORY_RESET c1)
                    (set_objects (objects c1 ++ [[]])%list c1)) as Hs'.
      destruct (session_post (setter_request _ _) _) as [[?|[]] c2];
        simpl in *; rewrite Hs', Hs, <- app_assoc; done.
    + exists []. simpl.
      pose proof (session_post_sent (getter_request Get_DEFAULTVALUE c)
                    (set_objects (objects c ++ [[]])%list c)) as Hs.
      by rewrite Hg in Hs.
  - intros e w Hw. rewrite factory_reset_eq. erewrite session_post_fails by done. done.
  - intros r o w Hw Hr Ho. rewrite factory_reset_eq.
    erewrite session_post_answered by done.
    destruct Ho as [-> | (r' & -> & Hr')].
    + erewrite session_post_fails by done. simpl.
      by rewrite <- app_assoc.
    + erewrite session_post_answered by done. simpl.
      by rewrite <- app_assoc.
Qed.

End LifecycleProperties.

Lemma timeout_tolerated_by_reboot_and_reset_witness :
  let snapshot := sample_response 200 "<DefaultValue/>" (Some "7361") None in
  (reboot (VInt 133) (sample_modem (Some "52") [] [Fails ReadTimeout])).1
  = Ok None
  ∧ (reboot (VInt 133)
       (sample_modem (Some "52") []
          [Fails (RequestException "ConnectTimeout")])).1
    = Raise (RequestException "ConnectTimeout")
  ∧ (reboot (VInt 133) (sample_modem (Some "52") [] [])).1
    = Raise (RequestException "ConnectionError")
  ∧ (factory_reset (VInt 7) (VInt 324)
       (sample_modem (Some "52") [] [Answers snapshot; Fails ReadTimeout])).1
    = Ok snapshot
  ∧ (factory_reset (VInt 7) (VInt 324)
       (sample_modem (Some "52") []
          [Answers snapshot; Fails (RequestException "ConnectionError")])).1
    = Raise (RequestException "ConnectionError").
Proof.
  intros snapshot. split_and!.
  - apply (proj1 (timeout_tolerated_by_reboot_and_reset (VInt 133) (VInt 7)
                    (VInt 324) _) []). reflexivity.
  - apply (proj1 (proj2 (timeout_tolerated_by_reboot_and_reset (VInt 133)
                           (VInt 7) (VInt 324) _)) _ []);
      [reflexivity | discriminate].
  - apply (proj1 (proj2 (proj2 (timeout_tolerated_by_reboot_and_reset
                                  (VInt 133) (VInt 7) (VInt 324) _)))).
    reflexivity.
  - apply (proj1 (proj2 (proj2 (proj2 (timeout_tolerated_by_reboot_and_reset
                                         (VInt 133) (VInt 7) (VInt 324) _))))
             snapshot []); reflexivity.
  - apply (proj2 (proj2 (proj2 (proj2 (timeout_tolerated_by_reboot_and_reset
                                         (VInt 133) (VInt 7) (VInt 324) _))))
             snapshot _ []); [reflexivity | reflexivity | discriminate].
Defined.

Lemma factory_reset_snapshot_first_witness :
  let snapshot := sample_response 200 "<DefaultValue/>" (Some "7361") None in
  let c := sample_modem (Some "52") [] [Answers snapshot; Fails ReadTimeout] in
  (factory_reset (VInt 7) (VInt 324) c).1 = Ok snapshot
  ∧ sent (factory_reset (VInt 7) (VInt 324) c).2
    = [getter_request (VInt 324) c;
       post_request c "/xml/setter.xml"
         [("token", VStr "7361"); ("fun", VInt 7)]]
  ∧ factory_reset (VInt 7) (VInt 324)
      (sample_modem (Some "52") [] [Fails ReadTimeout])
    = (Raise ReadTimeout,
       exchange [] (getter_request (VInt 324) (sample_modem (Some "52") [] []))
         (sample_modem (Some "52") [[]] [])).
Proof.
  intros snapshot c.
  destruct (factory_reset_snapshot_first (VInt 7) (VInt 324) c)
    as (_ & _ & Hboth).
  destruct (Hboth snapshot (Fails ReadTimeout) [] eq_refl eq_refl
              (or_introl eq_refl)) as [Hres Hsent].
  split_and!; [exact Hres | exact Hsent |].
  exact (proj1 (proj2 (factory_reset_snapshot_first (VInt 7) (VInt 324)
                         (sample_modem (Some "52") [] [Fails ReadTimeout])))
           ReadTimeout [] eq_refl).
Defined.

(** ** Binary upload *)

Lemma post_binary_eq path data filename c :
  post_binary path data filename c
  = match session_post (binary_request c path data filename) c with
    | (Ok _, c') => (Ok None, c')
    | (Raise e, c') => (Raise e, c')
    end.
Proof.
  unfold post_binary. py_unfold. cbv beta iota.
  change {| rq_url := _; rq_data := Raw data; rq_headers := _;
            rq_allow_redirects := None; rq_timeout := None |}
    with (binary_request c path data filename).
  by destruct (session_post _ _) as [[?|?] ?].
Qed.

Lemma restore_eq data c :
  restore data c
  = post_binary
      ("/xml/getter.xml?Restore=" ++ str_of_int (Z.of_nat (length data)))
      data "Config_Restore.bin" c.
Proof.
  unfold restore. py_unfold.
  by destruct (post_binary _ _ _ c) as [[?|?] ?].
Qed.

(** C5, where the code departs from it: [post_binary] issues the raw-body
    POST with the two headers, and when the device answers it, the answer
    is dropped and [None] is returned; [restore] returns that [None]. *)
Theorem post_binary_drops_response (path : string) (data : list Byte.byte)
    (filename : string) (c : Compal) (r : Response) (w : list outcome) :
  wire c = Answers r :: w →
  hook_completes r = true →
  (post_binary path data filename c).1 = Ok None
  ∧ sent (post_binary path data filename c).2
    = (sent c ++ [binary_request c path data filename])%list
  ∧ (restore data c).1 = Ok None.
Proof.
  intros Hw Hr. rewrite restore_eq, !post_binary_eq.
  by erewrite !session_post_answered by done.
Qed.

Lemma post_binary_drops_response_witness :
  let c := sample_modem (Some "52") []
             [Answers (sample_response 200 "" (Some "9") None)] in
  let data := [Byte.x43; Byte.x46; Byte.x47] in
  (post_binary "/xml/getter.xml?Restore=3" data "Config_Restore.bin" c).1
  = Ok None
  ∧ sent (post_binary "/xml/getter.xml?Restore=3" data "Config_Restore.bin"
            c).2
    = [binary_request c "/xml/getter.xml?Restore=3" data "Config_Restore.bin"]
  ∧ (restore data c).1 = Ok None.
Proof.
  intros c data.
  apply (post_binary_drops_response "/xml/getter.xml?Restore=3" data
           "Config_Restore.bin" c (sample_response 200 "" (Some "9") None) []);
    reflexivity.
Defined.

(** ** The function scanner *)

(** The four ways a request can end. *)
Lemma session_post_cases rq c :
  (wire c = []
   ∧ session_post rq c
     = (Raise (RequestException "ConnectionError"), exchange [] rq c))
  ∨ (∃ e w, wire c = Fails e :: w
            ∧ session_post rq c = (Raise e, exchange w rq c))
  ∨ (∃ r w, wire c = Answers r :: w ∧ hook_completes r = true
            ∧ session_post rq c = (Ok r, answered r w rq c))
  ∨ (∃ r w, wire c = Answers r :: w ∧ status_code r = 302
            ∧ session_post rq c
              = (Raise (KeyError "location"), intercepted r w rq c)).
Proof.
  destruct (wire c) as [|[r|e] w] eqn:Hw.
  - left. split; [done|]. unfold session_post. by rewrite Hw.
  - destruct (hook_completes r) eqn:Hr.
    + do 2 right. left. exists r, w. split_and!; [done..|].
      by apply session_post_answered.
    + do 3 right. exists r, w. split_and!; [done| |].
      * unfold hook_completes in Hr.
        by destruct (Z.eqb_spec (status_code r) 302).
      * by apply session_post_hook_raises.
  - right. left. exists e, w. split; [done|]. by apply session_post_fails.
Qed.

Section ScannerProperties.

Variable Set_LOGIN Get_CM_SYSTEM_INFO : value.
Variable parse_qs : string → gmap string (list string).

(** The loop body, request by request. *)
Lemma scan_body_eq f :
  scan_body Set_LOGIN Get_CM_SYSTEM_INFO parse_qs f
  = match session_post (getter_request (VInt (current_pos f)) (modem f))
            (set_objects (objects (modem f) ++ [[]])%list (modem f)) with
    | (Raise e, c1) => (Raise e, set_modem c1 f)
    | (Ok res, c1) =>
        if String.eqb (text res) "" then
          match session_post (getter_request Get_CM_SYSTEM_INFO c1)
                  (set_objects (objects c1 ++ [[]])%list c1) with
          | (Raise e, c2) => (Raise e, set_modem c2 f)
          | (Ok v, c2) =>
              if (status_code v =? 200)%Z
              then status_check res (set_modem c2 f)
              else
                match login Set_LOGIN parse_qs (scanner_key f) c2 with
                | (Ok _, c3) =>
                    (Ok res, set_modem c3 (set_last_login (current_pos f) f))
                | (Raise e, c3) =>
                    (Raise e, set_modem c3 (set_last_login (current_pos f) f))
                end
          end
        else status_check res (set_modem c1 f)
    end.
Proof.
  unfold scan_body, is_valid_session, on_modem, status_check.
  py_unfold. cbv beta iota.
  rewrite xml_getter_empty.
  destruct (session_post _ _) as [[res|e] c1]; [|done].
  simpl modem. destruct (String.eqb (text res) "").
  - rewrite xml_getter_empty.
    destruct (session_post _ _) as [[v|e] c2]; [|done].
    destruct (status_code v =? 200)%Z; simpl negb; cbv iota.
    + by destruct (status_code res =? 200)%Z.
    + simpl. by destruct (login _ _ _ _) as [[?|?] c3].
  - by destruct (status_code res =? 200)%Z.
Qed.

Lemma status_check_200 res f :
  status_code res = 200 →
  status_check res f = (Ok res, set_current_pos (current_pos f + 1) f).
Proof. intros H. unfold status_check. by rewrite H. Qed.

Lemma status_check_not_200 res f :
  status_code res ≠ 200 →
  status_check res f
  = (Raise (ValueError ("HTTP " ++ str_of_int (status_code res))), f).
Proof.
  intros H. unfold status_check.
  by destruct (Z.eqb_spec (status_code res) 200).
Qed.

Lemma status_check_cursor res f :
  current_pos (status_check res f).2
  = if (status_code res =? 200)%Z then current_pos f + 1 else current_pos f.
Proof. unfold status_check. by destruct (status_code res =? 200)%Z. Qed.

(** [login] sends its one request and nothing else. *)
Lemma login_sent k c :
  sent (login Set_LOGIN parse_qs k c).2
  = (sent c ++ [login_request Set_LOGIN k c])%list.
Proof.
  rewrite login_eq.
  pose proof (session_post_sent (login_request Set_LOGIN k c)
                (set_objects (objects c ++ [login_params k c])%list c)) as Hs.
  destruct (session_post _ _) as [[res|e] c']; [|done]. simpl in Hs.
  destruct (negb _).
  - destruct (headers res !! "Location"); [|done]. by destruct (endswith _ _).
  - by destruct (parse_qs (text res) !! "SID") as [[|sid ?]|].
Qed.

(** The cursor after one pass through the loop body. *)
Lemma scan_body_cursor f :
  current_pos (scan_body Set_LOGIN Get_CM_SYSTEM_INFO parse_qs f).2
  = if probe_advances (wire (modem f))
    then current_pos f + 1 else current_pos f.
Proof.
  rewrite scan_body_eq.
  destruct (session_post_cases (getter_request (VInt (current_pos f)) (modem f))
              (set_objects (objects (modem f) ++ [[]])%list (modem f)))
    as [(Hw & ->) | [(e & w & Hw & ->) | [(r & w & Hw & Hr & ->)
                                          | (r & w & Hw & Hs & ->)]]];
    simpl in Hw; rewrite Hw; unfold probe_advances; [done | done | |].
  - destruct (String.eqb (text r) "").
    + match goal with
      | |- context [session_post ?rq ?c] =>
          destruct (session_post_cases rq c)
            as [(Hw' & ->) | [(e & w' & Hw' & ->) | [(v & w' & Hw' & Hv & ->)
                                                     | (v & w' & Hw' & Hs & ->)]]]
      end; simpl in Hw'; rewrite Hw'.
      * by rewrite andb_false_r.
      * by rewrite andb_false_r.
      * destruct (status_code v =? 200)%Z.
        -- rewrite status_check_cursor. simpl.
           by destruct (status_code r =? 200)%Z.
        -- rewrite andb_false_r.
           by destruct (login _ _ _ _) as [[?|?] ?].
      * rewrite Hs. by rewrite andb_false_r.
    + rewrite status_check_cursor. simpl.
      by destruct (status_code r =? 200)%Z.
  - by rewrite Hs.
Qed.

(** Every pass starts by probing the position under the cursor. *)
Lemma scan_body_probes_cursor f :
  ∃ later,
    sent (modem (scan_body Set_LOGIN Get_CM_SYSTEM_INFO parse_qs f).2)
    = (sent (modem f)
         ++ getter_request (VInt (current_pos f)) (modem f) :: later)%list.
Proof.
  rewrite scan_body_eq.
  pose proof (session_post_sent
                (getter_request (VInt (current_pos f)) (modem f))
                (set_objects (objects (modem f) ++ [[]])%list (modem f))) as H1.
  destruct (session_post _ _) as [[res|e] c1]; simpl in H1;
    [|by exists []].
  assert (Hsc : ∀ g, modem g = c1 →
            sent (modem (status_check res g).2)
            = (sent (modem f)
                 ++ [getter_request (VInt (current_pos f)) (modem f)])%list).
  { intros g Hg. unfold status_check.
    destruct (status_code res =? 200)%Z; simpl; by rewrite Hg. }
  destruct (String.eqb (text res) ""); [|exists []; by apply Hsc].
  pose proof (session_post_sent (getter_request Get_CM_SYSTEM_INFO c1)
                (set_objects (objects c1 ++ [[]])%list c1)) as H2.
  destruct (session_post _ _) as [[v|e] c2]; simpl in H2.
  - destruct (status_code v =? 200)%Z.
    + exists [getter_request Get_CM_SYSTEM_INFO c1].
      unfold status_check. destruct (status_code res =? 200)%Z; simpl;
        by rewrite H2, H1, <- app_assoc.
    + pose proof (login_sent (scanner_key f) c2) as H3.
      exists [getter_request Get_CM_SYSTEM_INFO c1;
              login_request Set_LOGIN (scanner_key f) c2].
      destruct (login _ _ _ _) as [[?|?] c3]; simpl in *;
        by rewrite H3, H2, H1, <- !app_assoc.
  - exists [getter_request Get_CM_SYSTEM_INFO c1]. simpl.
    by rewrite H2, H1, <- app_assoc.
Qed.

(** The pass in which the session turns out to be lost. *)
Lemma scan_body_relogin f r v w :
  wire (modem f) = Answers r :: Answers v :: w →
  hook_completes r = true →
  hook_completes v = true →
  text r = "" →
  status_code v ≠ 200 →
  ∃ c2,
    sent c2
    = (sent (modem f) ++
         [getter_request (VInt (current_pos f)) (modem f);
          post_request (modem f) "/xml/getter.xml"
            [("token", token_value (cookies r !! "sessionToken"));
             ("fun", Get_CM_SYSTEM_INFO)]])%list
    ∧ session_token c2 = cookies v !! "sessionToken"
    ∧ router_ip c2 = router_ip (modem f)
    ∧ timeout c2 = timeout (modem f)
    ∧ key c2 = key (modem f)
    ∧ scan_body Set_LOGIN Get_CM_SYSTEM_INFO parse_qs f
      = match login Set_LOGIN parse_qs (scanner_key f) c2 with
        | (Ok _, c3) =>
            (Ok r, set_modem c3 (set_last_login (current_pos f) f))
        | (Raise e, c3) =>
            (Raise e, set_modem c3 (set_last_login (current_pos f) f))
        end.
Proof.
  intros Hw Hr Hv Ht Hs. rewrite scan_body_eq.
  erewrite session_post_answered by done.
  rewrite Ht. simpl String.eqb. cbv iota.
  erewrite session_post_answered by done.
  destruct (Z.eqb_spec (status_code v) 200); [done|].
  eexists. split_and!; [| | | | |reflexivity]; [|done..].
  simpl. by rewrite <- app_assoc.
Qed.

(** C2, amended: one pass through the loop body of [scan] moves the cursor
    by one exactly when the probe is answered [200] and either its body is
    not empty or, the body being empty, the session probe is answered [200]
    as well (an empty position of a live session is stepped over); in every
    other case the cursor stays.  When the body is empty and the session
    probe is not answered [200], [last_login] is set to the cursor, [login]
    is called, the cursor stays, the loop goes on if [login] returns, and
    the next pass probes the same position. *)
Theorem scan_cursor_advance (f : FuncScanner) :
  let f' := (scan_body Set_LOGIN Get_CM_SYSTEM_INFO parse_qs f).2 in
  current_pos f'
  = (if probe_advances (wire (modem f))
     then current_pos f + 1 else current_pos f)
  ∧ (∀ r v w,
       wire (modem f) = Answers r :: Answers v :: w →
       hook_completes r = true →
       hook_completes v = true →
       text r = "" →
       status_code v ≠ 200 →
       current_pos f' = current_pos f
       ∧ last_login f' = current_pos f
       ∧ sent (modem f')
         = (sent (modem f) ++
              [getter_request (VInt (current_pos f)) (modem f);
               post_request (modem f) "/xml/getter.xml"
                 [("token", token_value (cookies r !! "sessionToken"));
                  ("fun", Get_CM_SYSTEM_INFO)];
               post_request (modem f) "/xml/setter.xml"
                 [("token", token_value (cookies v !! "sessionToken"));
                  ("fun", Set_LOGIN);
                  ("Username", VStr "admin");
                  ("Password",
                   login_password (scanner_key f) (key (modem f)))]])%list
       ∧ (∀ res,
            (scan_body Set_LOGIN Get_CM_SYSTEM_INFO parse_qs f).1 = Ok res →
            res = r ∧ scan_test (Some res) = true)
       ∧ (∃ later,
            sent (modem (scan_body Set_LOGIN Get_CM_SYSTEM_INFO parse_qs f').2)
            = (sent (modem f')
                 ++ getter_request (VInt (current_pos f)) (modem f')
                      :: later)%list)).
Proof.
  intros f'. split; [apply scan_body_cursor|].
  intros r v w Hw Hr Hv Ht Hs.
  destruct (scan_body_relogin f r v w Hw Hr Hv Ht Hs)
    as (c2 & Hsent & Htok & Hip & Hto & Hkey & Heq).
  assert (Hpos : current_pos f' = current_pos f).
  { subst f'. rewrite Heq. by destruct (login _ _ _ _) as [[?|?] ?]. }
  split_and!; [done | | | |].
  - subst f'. rewrite Heq. by destruct (login _ _ _ _) as [[?|?] ?].
  - pose proof (login_sent (scanner_key f) c2) as Hl.
    assert (sent (modem f') = sent (login Set_LOGIN parse_qs (scanner_key f) c2).2)
      as ->.
    { subst f'. rewrite Heq. by destruct (login _ _ _ _) as [[?|?] ?]. }
    rewrite Hl, Hsent, <- app_assoc. simpl. do 4 f_equal.
    unfold login_request, login_params, post_request.
    by rewrite Htok, Hip, Hto, Hkey.
  - intros res. rewrite Heq.
    destruct (login _ _ _ _) as [[?|?] ?]; simpl; [|done].
    intros [= <-]. split; [done|].
    unfold scan_test. rewrite Ht. simpl. by rewrite orb_true_r.
  - rewrite <- Hpos. apply scan_body_probes_cursor.
Qed.

(** C8: in every pass of the loop of [scan], the first one or a later one
    (after a position stepped over or a re-login), when the status check
    finds a status other than [200], that is, after a probe with a body, or
    after a probe with an empty body whose session probe was answered
    [200], [scan] raises the error that carries the status.  The loop is
    left at once, whatever the bound on its passes: the cursor and
    [last_login] are as before, the requests sent are the probe and, where
    there was one, the session probe, no login among them, and no further
    outcome of the device is consumed. *)
Theorem scan_fatal_on_bad_status (n : nat) (res : option Response)
    (f : FuncScanner) :
  scan_test res = true →
  (∀ r w,
     wire (modem f) = Answers r :: w →
     hook_completes r = true →
     text r ≠ "" →
     status_code r ≠ 200 →
     ∃ f',
       scan_loop Set_LOGIN Get_CM_SYSTEM_INFO parse_qs (S n) res f
       = Some (Raise (ValueError ("HTTP " ++ str_of_int (status_code r))), f')
       ∧ current_pos f' = current_pos f
       ∧ last_login f' = last_login f
       ∧ wire (modem f') = w
       ∧ sent (modem f')
         = (sent (modem f)
              ++ [getter_request (VInt (current_pos f)) (modem f)])%list)
  ∧ (∀ r v w,
       wire (modem f) = Answers r :: Answers v :: w →
       hook_completes r = true →
       text r = "" →
       status_code v = 200 →
       status_code r ≠ 200 →
       ∃ f',
         scan_loop Set_LOGIN Get_CM_SYSTEM_INFO parse_qs (S n) res f
         = Some (Raise (ValueError ("HTTP " ++ str_of_int (status_code r))), f')
         ∧ current_pos f' = current_pos f
         ∧ last_login f' = last_login f
         ∧ wire (modem f') = w
         ∧ sent (modem f')
           = (sent (modem f) ++
                [getter_request (VInt (current_pos f)) (modem f);
                 post_request (modem f) "/xml/getter.xml"
                   [("token", token_value (cookies r !! "sessionToken"));
                    ("fun", Get_CM_SYSTEM_INFO)]])%list).
Proof.
  intros Htest. split.
  - intros r w Hw Hr Ht Hs.
    cbn [scan_loop]. rewrite Htest, scan_body_eq.
    erewrite session_post_answered by done.
    destruct (String.eqb_spec (text r) ""); [done|].
    rewrite status_check_not_200 by done.
    eexists. split; [reflexivity|]. by split_and!.
  - intros r v w Hw Hr Ht Hv Hs.
    cbn [scan_loop]. rewrite Htest, scan_body_eq.
    erewrite session_post_answered by done.
    rewrite Ht. simpl String.eqb. cbv iota.
    erewrite session_post_answered;
      [|done|apply hook_completes_not_302; by rewrite Hv].
    rewrite Hv. simpl Z.eqb. cbv iota.
    rewrite status_check_not_200 by done.
    eexists. split; [reflexivity|]. split_and!; [done..|].
    simpl. by rewrite <- app_assoc.
Qed.

End ScannerProperties.

(** C2 as the specification has it fails: in a live session a probe with
    an empty body and status [200] does move the cursor. *)
Lemma scan_steps_over_empty_position :
  ¬ (∀ (f : FuncScanner) (r : Response) (w : list outcome),
       wire (modem f) = Answers r :: w →
       text r = "" →
       current_pos (scan_body (VInt 15) (VInt 2) sample_parse_qs f).2
       = current_pos f).
Proof.
  intros H.
  specialize (H live_scanner _ _ eq_refl eq_refl).
  vm_compute in H. discriminate H.
Qed.

Lemma scan_cursor_advance_witness :
  let f' := (scan_body (VInt 15) (VInt 2) sample_parse_qs stale_scanner).2 in
  current_pos f' = 7
  ∧ last_login f' = 7
  ∧ (∃ later,
       sent (modem (scan_body (VInt 15) (VInt 2) sample_parse_qs f').2)
       = (sent (modem f') ++ getter_request (VInt 7) (modem f') :: later)%list).
Proof.
  intros f'.
  destruct (scan_cursor_advance (VInt 15) (VInt 2) sample_parse_qs stale_scanner)
    as [_ Hrelogin].
  destruct (Hrelogin
              (sample_response 302 "" (Some "53")
                 (Some "../common_page/login.html"))
              (sample_response 302 "" (Some "54")
                 (Some "../common_page/login.html"))
              [Answers (sample_response 200 "successful&SID=abc123"
                          (Some "55") None);
               Answers (sample_response 200 "<lang/>" (Some "56") None)]
              eq_refl eq_refl eq_refl eq_refl
              ltac:(vm_compute; discriminate))
    as (Hpos & Hlast & _ & _ & Hnext).
  split_and!; [exact Hpos | exact Hlast | exact Hnext].
Defined.

Lemma scan_fatal_on_bad_status_witness :
  (∃ f',
     scan_loop (VInt 15) (VInt 2) sample_parse_qs 1
       (Some (sample_response 200 "" (Some "51") None)) failing_scanner
     = Some (Raise (ValueError "HTTP 404"), f')
     ∧ current_pos f' = 5)
  ∧ (∃ f',
       scan_loop (VInt 15) (VInt 2) sample_parse_qs 3 None
         failing_empty_scanner
       = Some (Raise (ValueError "HTTP 500"), f')
       ∧ current_pos f' = 5
       ∧ wire (modem f')
         = [Answers (sample_response 200 "<x/>" (Some "55") None)]).
Proof.
  split.
  - destruct (proj1 (scan_fatal_on_bad_status (VInt 15) (VInt 2)
                       sample_parse_qs 0
                       (Some (sample_response 200 "" (Some "51") None))
                       failing_scanner eq_refl)
                (sample_response 404 "<html>Not Found</html>" None None) _
                eq_refl eq_refl
                ltac:(vm_compute; discriminate)
                ltac:(vm_compute; discriminate))
      as (f' & Hscan & Hpos & _).
    exists f'. split; [exact Hscan | exact Hpos].
  - destruct (proj2 (scan_fatal_on_bad_status (VInt 15) (VInt 2)
                       sample_parse_qs 2 None failing_empty_scanner eq_refl)
                (sample_response 500 "" (Some "53") None)
                (sample_response 200 "<cm_system_info/>" (Some "54") None) _
                eq_refl eq_refl eq_refl eq_refl
                ltac:(vm_compute; discriminate))
      as (f' & Hscan & Hpos & _ & Hwire & _).
    exists f'. split_and!; [exact Hscan | exact Hpos | exact Hwire].
Defined.

(** A bad status met in a later pass of one call of [scan]: position 5 of
    a live session is empty and stepped over, position 6 answers [404]. *)
Example scan_raises_in_second_pass :
  ∃ f',
    scan (VInt 15) (VInt 2) sample_parse_qs 5
      (new_scanner
         (sample_modem (Some "52") []
            [Answers (sample_response 200 "" (Some "53") None);
             Answers (sample_response 200 "<cm_system_info/>" (Some "54") None);
             Answers (sample_response 404 "<html>Not Found</html>" None None);
             Answers (sample_response 200 "<x/>" (Some "55") None)])
         5 (Some "1234567"))
    = Some (Raise (ValueError "HTTP 404"), f')
    ∧ current_pos f' = 6
    ∧ wire (modem f') = [Answers (sample_response 200 "<x/>" (Some "55") None)].
Proof. eexists. split; [vm_compute; reflexivity|]. by vm_compute. Qed.

(** ** Termination of [scan] on a finite script *)

Lemma session_post_wire rq c :
  wire (session_post rq c).2 = tail (wire c).
Proof.
  destruct (session_post_cases rq c)
    as [(Hw & ->) | [(e & w & Hw & ->) | [(r & w & Hw & Hr & ->)
                                          | (r & w & Hw & Hs & ->)]]];
    by rewrite Hw.
Qed.

Lemma session_post_Ok_wire rq c r c' :
  session_post rq c = (Ok r, c') →
  (length (wire c') < length (wire c))%nat.
Proof.
  intros H. pose proof (session_post_wire rq c) as Hw. rewrite H in Hw.
  simpl in Hw. rewrite Hw.
  destruct (session_post_cases rq c)
    as [(Hw' & He) | [(e & w & Hw' & He) | [(r' & w & Hw' & Hr & He)
                                            | (r' & w & Hw' & Hs & He)]]];
    rewrite He in H; try discriminate H; rewrite Hw'; simpl; lia.
Qed.

Lemma length_tail_le {A} (l : list A) : (length (tail l) ≤ length l)%nat.
Proof. destruct l; simpl; lia. Qed.

Section ScanTermination.

Variable Set_LOGIN Get_CM_SYSTEM_INFO : value.
Variable parse_qs : string → gmap string (list string).

Lemma login_wire k c :
  wire (login Set_LOGIN parse_qs k c).2 = tail (wire c).
Proof.
  rewrite login_eq.
  pose proof (session_post_wire (login_request Set_LOGIN k c)
                (set_objects (objects c ++ [login_params k c])%list c)) as Hs.
  destruct (session_post _ _) as [[res|e] c']; [|done]. simpl in Hs.
  destruct (negb _).
  - destruct (headers res !! "Location"); [|done]. by destruct (endswith _ _).
  - by destruct (parse_qs (text res) !! "SID") as [[|sid ?]|].
Qed.

(** A pass that completes has used up at least one outcome. *)
Lemma scan_body_Ok_wire f r f' :
  scan_body Set_LOGIN Get_CM_SYSTEM_INFO parse_qs f = (Ok r, f') →
  (length (wire (modem f')) < length (wire (modem f)))%nat.
Proof.
  rewrite scan_body_eq.
  destruct (session_post _ _) as [[res|e] c1] eqn:H1; [|discriminate].
  apply session_post_Ok_wire in H1. simpl in H1.
  assert (Hsc : ∀ g, status_check res g = (Ok r, f') →
                     wire (modem f') = wire (modem g)).
  { intros g. unfold status_check.
    destruct (status_code res =? 200)%Z; [|discriminate].
    by intros [= _ <-]. }
  destruct (String.eqb (text res) "").
  - pose proof (session_post_wire (getter_request Get_CM_SYSTEM_INFO c1)
                  (set_objects (objects c1 ++ [[]])%list c1)) as H2.
    destruct (session_post _ _) as [[v|e] c2]; [|discriminate].
    simpl in H2. pose proof (length_tail_le (wire c1)) as Hle.
    destruct (status_code v =? 200)%Z.
    + intros H. apply Hsc in H. simpl in H. rewrite H, H2. lia.
    + pose proof (login_wire (scanner_key f) c2) as H3.
      pose proof (length_tail_le (wire c2)) as Hle2.
      destruct (login _ _ _ _) as [[?|?] c3]; [|discriminate].
      intros [= _ <-]. simpl in *. rewrite H3, H2 in *. lia.
  - intros H. apply Hsc in H. simpl in H. rewrite H. lia.
Qed.

(** [scan] comes to an end, with a response or an exception, within as
    many passes as the device has outcomes in store, plus one. *)
Lemma scan_loop_total n res f :
  (length (wire (modem f)) < n)%nat →
  is_Some (scan_loop Set_LOGIN Get_CM_SYSTEM_INFO parse_qs n res f).
Proof.
  revert res f. induction n as [|n IH]; intros res f Hn; [lia|].
  simpl. destruct (scan_test res); [|by eexists].
  destruct (scan_body _ _ _ f) as [[r|e] f'] eqn:Hb; [|by eexists].
  apply IH. apply scan_body_Ok_wire in Hb. lia.
Qed.

(** X11: on a finite script [scan] always comes to an end, returning or
    raising, within one pass more than the device has outcomes in store:
    every pass of its loop that completes has used up at least one. *)
Lemma scan_total f :
  is_Some (scan Set_LOGIN Get_CM_SYSTEM_INFO parse_qs
             (S (length (wire (modem f)))) f).
Proof. apply scan_loop_total. lia. Qed.

(** A response that [scan] returns ends the loop: its body is not empty. *)
Lemma scan_loop_returns n res f out f' :
  scan_loop Set_LOGIN Get_CM_SYSTEM_INFO parse_qs n res f = Some (Ok out, f') →
  ∃ r, out = Some r ∧ text r ≠ "" ∧ response_ok r = true.
Proof.
  revert res f. induction n as [|n IH]; intros res f; simpl.
  - destruct (scan_test res) eqn:Ht; [discriminate|].
    intros [= <- <-]. destruct res as [r|]; [|discriminate].
    exists r. simpl in Ht. apply orb_false_elim in Ht as [Hok Htx].
    split_and!; [done| |by apply negb_false_iff].
    by destruct (String.eqb_spec (text r) "").
  - destruct (scan_test res) eqn:Ht.
    + destruct (scan_body _ _ _ f) as [[r|e] f'']; [apply IH | discriminate].
    + intros [= <- <-]. destruct res as [r|]; [|discriminate].
      exists r. simpl in Ht. apply orb_false_elim in Ht as [Hok Htx].
      split_and!; [done| |by apply negb_false_iff].
      by destruct (String.eqb_spec (text r) "").
Qed.

End ScanTermination.

(** The scenario of the specification: position 7 answers with an empty
    body while the session is lost; the scanner logs in, records 7 and
    probes 7 again, which then answers. *)
Example scan_recovers_position_7 :
  ∃ r f',
    scan (VInt 15) (VInt 2) sample_parse_qs 2 stale_scanner = Some (Ok (Some r), f')
    ∧ text r = "<lang/>"
    ∧ current_pos f' = 8
    ∧ last_login f' = 7
    ∧ rq_data <$> sent (modem f')
      = [Form [("token", VStr "52"); ("fun", VInt 7)];
         Form [("token", VStr "53"); ("fun", VInt 2)];
         Form [("token", VStr "54"); ("fun", VInt 15);
               ("Username", VStr "admin"); ("Password", VStr "1234567")];
         Form [("token", VStr "55"); ("fun", VInt 7)]].
Proof. do 2 eexists. split; [vm_compute; reflexivity|]. by vm_compute. Qed.

(** * Further properties of the client *)

(** ** URLs *)

Lemma strip_slashes_no_leading_slash path rest :
  strip_slashes path ≠ String "/" rest.
Proof.
  induction path as [|a path IH]; [done|].
  simpl. destruct (Ascii.eqb_spec a "/") as [->|Hne]; [done|].
  destruct a as [[] [] [] [] [] [] [] []]; try congruence; done.
Qed.

(** X1: [url] drops every leading slash of the path: any number of them in
    front of a path gives the URL of the path, and what follows the host
    and its one slash never starts with a slash. *)
Theorem url_ignores_leading_slashes (n : nat) (path : string) (c : Compal) :
  url (str_repeat "/" (Z.of_nat n) ++ path) c = url path c
  ∧ ∃ p, url path c = (Ok ("http://" ++ router_ip c ++ "/" ++ p), c)
         ∧ ∀ rest, p ≠ String "/" rest.
Proof.
  split.
  - unfold url. py_unfold. do 3 f_equal.
    unfold str_repeat. rewrite Nat2Z.id.
    induction n as [|n IH]; [done|]. simpl. exact IH.
  - exists (strip_slashes path). split; [done|].
    apply strip_slashes_no_leading_slash.
Qed.

(** ** What a request leaves alone *)

Lemma session_post_exhausted rq c :
  wire c = [] →
  session_post rq c
  = (Raise (RequestException "ConnectionError"), exchange [] rq c).
Proof. intros Hw. unfold session_post. by rewrite Hw. Qed.

Lemma session_post_frame rq c :
  router_ip (session_post rq c).2 = router_ip c
  ∧ timeout (session_post rq c).2 = timeout c
  ∧ key (session_post rq c).2 = key c
  ∧ session_cookies (session_post rq c).2 = jar_after c
  ∧ objects (session_post rq c).2 = objects c.
Proof.
  unfold jar_after. destruct (wire c) as [|[r|e] w] eqn:Hw.
  - by erewrite session_post_exhausted by done.
  - destruct (hook_completes r) eqn:Hr.
    + by erewrite session_post_answered by done.
    + by erewrite session_post_hook_raises by done.
  - by erewrite session_post_fails by done.
Qed.





(** ** A redirect without a target *)

(** X3: a [302] answer without a [Location] header makes [post] raise
    [KeyError] from the response hook, though the request has gone out, the
    answer is used up and its token is stored. *)
Theorem post_redirect_without_location (path : string) (l : loc) (d : dict)
    (c : Compal) (r : Response) (w : list outcome) :
  objects c !! l = Some d →
  wire c = Answers r :: w →
  status_code r = 302 →
  headers r !! "Location" = None →
  (post path l c).1 = Raise (KeyError "location")
  ∧ session_token (post path l c).2 = cookies r !! "sessionToken"
  ∧ wire (post path l c).2 = w
  ∧ sent (post path l c).2
    = (sent c ++ [post_request c path
                    (post_fields (token_value (session_token c)) d)])%list.
Proof.
  intros Hl Hw Hs Hh. rewrite (post_eq path l d) by done.
  erewrite session_post_hook_raises; [done | done |].
  unfold hook_completes. by rewrite Hs, Hh.
Qed.

Lemma post_redirect_without_location_witness :
  let c := sample_modem (Some "52") [[("fun", VInt 2)]]
             [Answers (sample_response 302 "" (Some "53") None)] in
  (post "/xml/getter.xml" 0%nat c).1 = Raise (KeyError "location")
  ∧ session_token (post "/xml/getter.xml" 0%nat c).2 = Some "53".
Proof.
  intros c.
  destruct (post_redirect_without_location "/xml/getter.xml" 0%nat
              [("fun", VInt 2)] c
              (sample_response 302 "" (Some "53") None) []
              eq_refl eq_refl eq_refl eq_refl) as (H1 & H2 & _).
  split; [exact H1 | exact H2].
Defined.

(** ** Tokens from call to call *)

Lemma rpc_fields_of_filter tok f (d : dict) :
  NoDup (keys d) → "token" ∉ keys d →
  dict_update [("token", tok); ("fun", f)] (filter (λ kv, kv.1 ≠ "fun") d)
  = (("token", tok) :: ("fun", f) :: filter (λ kv, kv.1 ≠ "fun") d)%list.
Proof.
  intros Hnd Htok.
  rewrite dict_update_fresh; [done | by apply NoDup_keys_filter |].
  intros k Hk. unfold keys. simpl. rewrite !not_elem_of_cons.
  split_and!; [| |by inversion 1].
  - intros ->. apply Htok.
    apply list_elem_of_fmap in Hk as [kv [-> Hkv]].
    apply list_elem_of_filter in Hkv as [_ Hkv].
    apply list_elem_of_fmap. by exists kv.
  - intros ->. by apply keys_filter_ne in Hk.
Qed.

Lemma filter_filter_key k (d : dict) :
  filter (λ kv, kv.1 ≠ k) (filter (λ kv, kv.1 ≠ k) d)
  = filter (λ kv, kv.1 ≠ k) d.
Proof. apply filter_absent_key, keys_filter_ne. Qed.

Lemma keys_filter_subset k k' (d : dict) :
  k' ∈ keys (filter (λ kv, kv.1 ≠ k) d) → k' ∈ keys d.
Proof.
  unfold keys. intros H. apply list_elem_of_fmap in H as [kv [-> Hkv]].
  apply list_elem_of_filter in Hkv as [_ Hkv].
  apply list_elem_of_fmap. by exists kv.
Qed.

(** X4: two primitives called one after the other on the same params
    dictionary: the second request carries the token of the answer to the
    first (or [None] if that answer had no token cookie) and its own
    function identifier, followed by the caller's items; nothing of the
    first call's ['fun'] is left in it. *)
Theorem rpc_chain_on_shared_params (f1 f2 : value) (l : loc) (d : dict)
    (c : Compal) (r : Response) (w : list outcome) :
  objects c !! l = Some d →
  NoDup (keys d) →
  "token" ∉ keys d →
  wire c = Answers r :: w →
  hook_completes r = true →
  ∃ rq1 rq2,
    sent (xml_setter f2 (Some l) (xml_getter f1 l c).2).2
    = (sent c ++ [rq1; rq2])%list
    ∧ rq_data rq1
      = Form (("token", token_value (session_token c)) :: ("fun", f1)
                :: filter (λ kv, kv.1 ≠ "fun") d)
    ∧ rq_data rq2
      = Form (("token", token_value (cookies r !! "sessionToken"))
                :: ("fun", f2) :: filter (λ kv, kv.1 ≠ "fun") d).
Proof.
  intros Hl Hnd Htok Hw Hr.
  set (d' := filter (λ kv, kv.1 ≠ "fun") d).
  set (rq1 := post_request c "/xml/getter.xml"
                (("token", token_value (session_token c)) :: ("fun", f1) :: d')).
  set (c1 := answered r w rq1 (set_objects (<[l := d']> (objects c)) c)).
  assert (Hc1 : xml_getter f1 l c = (Ok r, c1)).
  { rewrite (xml_getter_eq f1 l d), rpc_post_eq by done.
    rewrite rpc_fields_of_filter by done.
    by erewrite session_post_answered by done. }
  assert (Hl1 : objects c1 !! l = Some d').
  { simpl. apply list_lookup_insert_eq. by eapply lookup_lt_Some. }
  rewrite Hc1. change ((Ok r, c1).2) with c1.
  rewrite (xml_setter_eq f2 l d') by done.
  rewrite (rpc_post_eq _ f2 l d' c1 Hl1 (NoDup_keys_filter _ d Hnd)).
  rewrite session_post_sent.
  assert (Hff : filter (λ kv, kv.1 ≠ "fun") d' = d')
    by apply filter_filter_key.
  rewrite Hff.
  assert (Hfields : dict_update
                      [("token", token_value (session_token c1)); ("fun", f2)] d'
                    = (("token", token_value (session_token c1))
                         :: ("fun", f2) :: d')%list)
    by (by apply rpc_fields_of_filter).
  rewrite Hfields.
  exists rq1.
  exists (post_request c1 "/xml/setter.xml"
            (("token", token_value (session_token c1)) :: ("fun", f2) :: d')).
  split_and!; [|reflexivity..].
  simpl. by rewrite <- app_assoc.
Qed.

Lemma rpc_chain_on_shared_params_witness :
  let c := sample_modem (Some "52") [[("lang", VStr "en")]]
             [Answers (sample_response 200 "<ok/>" (Some "53") None)] in
  ∃ rq1 rq2,
    sent (xml_setter (VInt 4) (Some 0%nat) (xml_getter (VInt 3) 0%nat c).2).2
    = [rq1; rq2]
    ∧ rq_data rq1
      = Form [("token", VStr "52"); ("fun", VInt 3); ("lang", VStr "en")]
    ∧ rq_data rq2
      = Form [("token", VStr "53"); ("fun", VInt 4); ("lang", VStr "en")].
Proof.
  intros c.
  apply (rpc_chain_on_shared_params (VInt 3) (VInt 4) 0%nat
           [("lang", VStr "en")] c
           (sample_response 200 "<ok/>" (Some "53") None) []);
    [reflexivity | by_decide | by_decide | reflexivity | reflexivity].
Defined.

(** ** Login and logout *)

Section SessionProperties.

Variable Set_LOGIN Set_LOGOUT : value.
Variable parse_qs : string → gmap string (list string).


(** X6: [login] sends exactly one request, whatever comes of it: a POST to the
    setter endpoint with the token, the login function, [Username=admin]
    and the password, which is the override if that is a non-empty string,
    else the stored key, else [None].  An empty override is no override. *)
Theorem login_sends_credentials (k : option string) (c : Compal) :
  sent (login Set_LOGIN parse_qs k c).2
  = (sent c ++
       [post_request c "/xml/setter.xml"
          [("token", token_value (session_token c));
           ("fun", Set_LOGIN);
           ("Username", VStr "admin");
           ("Password",
            match k with
            | Some override =>
                if String.eqb override "" then token_value (key c)
                else VStr override
            | None => token_value (key c)
            end)]])%list
  ∧ login Set_LOGIN parse_qs (Some "") c = login Set_LOGIN parse_qs None c.
Proof.
  split; [|done].
  rewrite login_eq.
  pose proof (session_post_sent (login_request Set_LOGIN k c)
                (set_objects (objects c ++ [login_params k c])%list c)) as Hs.
  assert (sent (session_post (login_request Set_LOGIN k c)
                  (set_objects (objects c ++ [login_params k c])%list c)).2
          = (sent c ++
               [post_request c "/xml/setter.xml"
                  [("token", token_value (session_token c));
                   ("fun", Set_LOGIN);
                   ("Username", VStr "admin");
                   ("Password",
                    match k with
                    | Some override =>
                        if String.eqb override "" then token_value (key c)
                        else VStr override
                    | None => token_value (key c)
                    end)]])%list) as Hs'.
  { rewrite Hs. simpl. do 4 f_equal.
    unfold login_request, login_params, login_password.
    by destruct k as [[|a s]|]. }
  clear Hs. destruct (session_post _ _) as [[res|e] c']; [|done].
  simpl in Hs'. destruct (negb _).
  - destruct (headers res !! "Location"); [|done]. by destruct (endswith _ _).
  - by destruct (parse_qs (text res) !! "SID") as [[|sid ?]|].
Qed.



End SessionProperties.



(** ** Initial setup *)

Lemma run_calls_sent_count calls c :
  length (sent (run_calls calls c).2)
  = (length (sent c) + length calls `min` S (answered_prefix (wire c)))%nat.
Proof.
  revert c. induction calls as [|[[path f] mk] calls IH]; intros c; simpl.
  - lia.
  - destruct (wire c) as [|[r|e] w] eqn:Hw.
    + erewrite session_post_exhausted by done. simpl.
      rewrite length_app. simpl. lia.
    + simpl. destruct (hook_completes r) eqn:Hr.
      * erewrite session_post_answered by done. rewrite IH. simpl.
        rewrite length_app. simpl. lia.
      * erewrite session_post_hook_raises by done. simpl.
        rewrite length_app. simpl. lia.
    + erewrite session_post_fails by done. simpl.
      rewrite length_app. simpl. lia.
Qed.

Lemma run_calls_Ok calls c :
  (run_calls calls c).1 = Ok tt
  ↔ (length calls ≤ answered_prefix (wire c))%nat.
Proof.
  revert c. induction calls as [|[[path f] mk] calls IH]; intros c; simpl.
  - split; [lia | done].
  - destruct (wire c) as [|[r|e] w] eqn:Hw.
    + erewrite session_post_exhausted by done. simpl. split; [done | lia].
    + simpl. destruct (hook_completes r) eqn:Hr.
      * erewrite session_post_answered by done. rewrite IH. simpl. lia.
      * erewrite session_post_hook_raises by done. simpl. split; [done | lia].
    + erewrite session_post_fails by done. simpl. split; [done | lia].
Qed.

Lemma set_key_id c : set_key (key c) c = c.
Proof. by destruct c. Qed.

Section SetupProperties.

Variable Set_LANGUAGE Set_LOGIN Set_INSTALL_DONE : value.
Variable Get_MULTILANG Get_LANGSETLIST Get_WIRELESSBASIC : value.

Lemma initial_setup_stored_key c a s :
  key c = Some (String a s) →
  initial_setup Set_LANGUAGE Set_LOGIN Set_INSTALL_DONE
    Get_MULTILANG Get_LANGSETLIST Get_WIRELESSBASIC None c
  = run_calls
      (setup_calls Set_LANGUAGE Set_LOGIN Set_INSTALL_DONE
         Get_MULTILANG Get_LANGSETLIST Get_WIRELESSBASIC) c.
Proof.
  intros Hk. unfold initial_setup. py_unfold. cbv beta iota.
  rewrite Hk. cbv iota. simpl run_calls.
  rewrite xml_getter_fresh by (unfold keys; simpl; by_decide).
  destruct (session_post _ _) as [[r1|e] c1]; [|done].
  rewrite xml_getter_fresh by (unfold keys; simpl; by_decide).
  destruct (session_post _ _) as [[r2|e] c2]; [|done].
  rewrite xml_getter_fresh by (unfold keys; simpl; by_decide).
  destruct (session_post _ _) as [[r3|e] c3]; [|done].
  rewrite xml_setter_fresh by (unfold keys; simpl; by_decide).
  destruct (session_post _ _) as [[r4|e] c4]; [|done].
  rewrite xml_setter_fresh by (unfold keys; simpl; by_decide).
  destruct (session_post _ _) as [[r5|e] c5]; [|done].
  rewrite xml_getter_fresh by (unfold keys; simpl; by_decide).
  destruct (session_post _ _) as [[r6|e] c6]; [|done].
  rewrite xml_setter_fresh by (unfold keys; simpl; by_decide).
  by destruct (session_post _ _) as [[r7|e] c7].
Qed.

Lemma initial_setup_eq nk c a s :
  setup_key nk c = Some (String a s) →
  initial_setup Set_LANGUAGE Set_LOGIN Set_INSTALL_DONE
    Get_MULTILANG Get_LANGSETLIST Get_WIRELESSBASIC nk c
  = run_calls
      (setup_calls Set_LANGUAGE Set_LOGIN Set_INSTALL_DONE
         Get_MULTILANG Get_LANGSETLIST Get_WIRELESSBASIC)
      (set_key (Some (String a s)) c).
Proof.
  intros Hk. rewrite <- (initial_setup_stored_key _ a s) by done.
  destruct nk as [[|b k]|]; simpl in Hk.
  - rewrite <- Hk, set_key_id. reflexivity.
  - injection Hk as -> ->. reflexivity.
  - rewrite <- Hk, set_key_id. reflexivity.
Qed.

Lemma run_calls_frame calls c :
  router_ip (run_calls calls c).2 = router_ip c
  ∧ timeout (run_calls calls c).2 = timeout c
  ∧ key (run_calls calls c).2 = key c.
Proof.
  revert c. induction calls as [|[[path f] mk] calls IH]; intros c; [done|].
  simpl.
  match goal with
  | |- context [session_post ?rq ?c'] =>
      destruct (session_post_frame rq c') as (H1 & H2 & H3 & _)
  end.
  destruct (session_post _ _) as [[r|e] c']; simpl in *.
  - destruct (IH c') as (-> & -> & ->). by rewrite H1, H2, H3.
  - by rewrite H1, H2, H3.
Qed.

(** X8: without a key, [initial_setup] raises before anything is sent: when
    [new_key] is [None] or empty and the stored key is [None] or empty, the
    call ends in [ValueError] and the client is as it was. *)
Theorem initial_setup_without_key (new_key : option string) (c : Compal) :
  setup_key new_key c = None ∨ setup_key new_key c = Some "" →
  initial_setup Set_LANGUAGE Set_LOGIN Set_INSTALL_DONE
    Get_MULTILANG Get_LANGSETLIST Get_WIRELESSBASIC new_key c
  = (Raise (ValueError "No key/password availalbe"), c).
Proof.
  intros Hk. unfold initial_setup. py_unfold. cbv beta iota.
  destruct new_key as [[|b k]|]; simpl in Hk; cbv beta iota;
    [| by destruct Hk |]; by destruct Hk as [-> | ->].
Qed.

(** X9: with a key, [initial_setup] goes through its seven calls for as long
    as the device answers: it returns exactly when the first seven
    outcomes are answers, and otherwise stops with the exception of the
    first call that fails, having sent no request after that one.  The key
    it leaves stored is [new_key] if that was given, else the old one. *)
Theorem initial_setup_progress (new_key : option string) (c : Compal)
    (a : ascii) (s : string) :
  setup_key new_key c = Some (String a s) →
  let out := initial_setup Set_LANGUAGE Set_LOGIN Set_INSTALL_DONE
               Get_MULTILANG Get_LANGSETLIST Get_WIRELESSBASIC new_key c in
  (out.1 = Ok tt ↔ (7 ≤ answered_prefix (wire c))%nat)
  ∧ length (sent out.2)
    = (length (sent c) + 7 `min` S (answered_prefix (wire c)))%nat
  ∧ key out.2 = Some (String a s).
Proof.
  intros Hk out. subst out. rewrite (initial_setup_eq _ _ a s) by done.
  split_and!.
  - exact (run_calls_Ok _ (set_key (Some (String a s)) c)).
  - exact (run_calls_sent_count _ (set_key (Some (String a s)) c)).
  - by destruct (run_calls_frame
                   (setup_calls Set_LANGUAGE Set_LOGIN Set_INSTALL_DONE
                      Get_MULTILANG Get_LANGSETLIST Get_WIRELESSBASIC)
                   (set_key (Some (String a s)) c)) as (_ & _ & ->).
Qed.

(** X10: the requests of a complete [initial_setup], in order: the three
    language getters, the language setter with [lang=en], the login with
    the key, the wireless getter, the install-done setter; each carries the
    token of the answer before it. *)
Theorem initial_setup_requests (new_key : option string) (c : Compal)
    (a : ascii) (s : string) (r1 r2 r3 r4 r5 r6 r7 : Response)
    (w : list outcome) :
  setup_key new_key c = Some (String a s) →
  wire c = Answers r1 :: Answers r2 :: Answers r3 :: Answers r4
             :: Answers r5 :: Answers r6 :: Answers r7 :: w →
  hook_completes r1 = true → hook_completes r2 = true →
  hook_completes r3 = true → hook_completes r4 = true →
  hook_completes r5 = true → hook_completes r6 = true →
  hook_completes r7 = true →
  let out := initial_setup Set_LANGUAGE Set_LOGIN Set_INSTALL_DONE
               Get_MULTILANG Get_LANGSETLIST Get_WIRELESSBASIC new_key c in
  let tok r := token_value (cookies r !! "sessionToken") in
  out.1 = Ok tt
  ∧ wire out.2 = w
  ∧ session_token out.2 = cookies r7 !! "sessionToken"
  ∧ sent out.2
    = (sent c ++
         [post_request c "/xml/getter.xml"
            [("token", token_value (session_token c)); ("fun", Get_MULTILANG)];
          post_request c "/xml/getter.xml"
            [("token", tok r1); ("fun", Get_LANGSETLIST)];
          post_request c "/xml/getter.xml"
            [("token", tok r2); ("fun", Get_MULTILANG)];
          post_request c "/xml/setter.xml"
            [("token", tok r3); ("fun", Set_LANGUAGE); ("lang", VStr "en")];
          post_request c "/xml/setter.xml"
            [("token", tok r4); ("fun", Set_LOGIN);
             ("Username", VStr "admin"); ("Password", VStr (String a s))];
          post_request c "/xml/getter.xml"
            [("token", tok r5); ("fun", Get_WIRELESSBASIC)];
          post_request c "/xml/setter.xml"
            [("token", tok r6); ("fun", Set_INSTALL_DONE);
             ("install", VInt 0); ("iv", VInt 1); ("en", VInt 0)]])%list.
Proof.
  intros Hk Hw H1 H2 H3 H4 H5 H6 H7 out tok. subst out tok.
  rewrite (initial_setup_eq _ _ a s) by done.
  unfold setup_calls. cbn [run_calls].
  erewrite session_post_answered by (simpl; done).
  erewrite session_post_answered by (simpl; done).
  erewrite session_post_answered by (simpl; done).
  erewrite session_post_answered by (simpl; done).
  erewrite session_post_answered by (simpl; done).
  erewrite session_post_answered by (simpl; done).
  erewrite session_post_answered by (simpl; done).
  split_and!; [done..|].
  simpl. rewrite <- !app_assoc. reflexivity.
Qed.

End SetupProperties.

Lemma initial_setup_without_key_witness :
  let c := set_key None
             (sample_modem (Some "52") []
                [Answers (sample_response 200 "" (Some "53") None)]) in
  initial_setup (VInt 4) (VInt 15) (VInt 20) (VInt 3) (VInt 21) (VInt 300)
    (Some "") c
  = (Raise (ValueError "No key/password availalbe"), c).
Proof.
  intros c.
  apply (initial_setup_without_key (VInt 4) (VInt 15) (VInt 20) (VInt 3)
           (VInt 21) (VInt 300) (Some "") c).
  left. reflexivity.
Defined.

Lemma initial_setup_progress_witness :
  let c := sample_modem (Some "52") []
             [Answers (sample_response 200 "<lang/>" (Some "53") None);
              Fails ReadTimeout;
              Answers (sample_response 200 "<lang/>" (Some "54") None)] in
  let out := initial_setup (VInt 4) (VInt 15) (VInt 20) (VInt 3) (VInt 21)
               (VInt 300) (Some "secret") c in
  length (sent out.2) = 2%nat ∧ key out.2 = Some "secret".
Proof.
  intros c out.
  destruct (initial_setup_progress (VInt 4) (VInt 15) (VInt 20) (VInt 3)
              (VInt 21) (VInt 300) (Some "secret") c "s" "ecret" eq_refl)
    as (_ & Hcount & Hkey).
  split; [exact Hcount | exact Hkey].
Defined.

Lemma initial_setup_requests_witness :
  let ok t := sample_response 200 "<ok/>" (Some t) None in
  let c := sample_modem (Some "52") []
             [Answers (ok "53"); Answers (ok "54"); Answers (ok "55");
              Answers (ok "56"); Answers (ok "57"); Answers (ok "58");
              Answers (ok "59")] in
  let out := initial_setup (VInt 4) (VInt 15) (VInt 20) (VInt 3) (VInt 21)
               (VInt 300) None c in
  out.1 = Ok tt
  ∧ rq_data <$> sent out.2
    = [Form [("token", VStr "52"); ("fun", VInt 3)];
       Form [("token", VStr "53"); ("fun", VInt 21)];
       Form [("token", VStr "54"); ("fun", VInt 3)];
       Form [("token", VStr "55"); ("fun", VInt 4); ("lang", VStr "en")];
       Form [("token", VStr "56"); ("fun", VInt 15);
             ("Username", VStr "admin"); ("Password", VStr "1234567")];
       Form [("token", VStr "57"); ("fun", VInt 300)];
       Form [("token", VStr "58"); ("fun", VInt 20);
             ("install", VInt 0); ("iv", VInt 1); ("en", VInt 0)]].
Proof.
  intros ok c out.
  destruct (initial_setup_requests (VInt 4) (VInt 15) (VInt 20) (VInt 3)
              (VInt 21) (VInt 300) None c "1" "234567"
              (ok "53") (ok "54") (ok "55") (ok "56") (ok "57") (ok "58")
              (ok "59") []
              eq_refl eq_refl eq_refl eq_refl eq_refl eq_refl eq_refl eq_refl
              eq_refl) as (Hres & _ & _ & Hsent).
  split; [exact Hres|].
  change (sent out.2) with
    (sent (initial_setup (VInt 4) (VInt 15) (VInt 20) (VInt 3) (VInt 21)
             (VInt 300) None c).2).
  rewrite Hsent. reflexivity.
Defined.

(** ** More on the scanner *)

Lemma session_post_Ok_inv rq c r c' :
  session_post rq c = (Ok r, c') →
  wire c = Answers r :: wire c'
  ∧ sent c' = (sent c ++ [rq])%list.
Proof.
  intros H.
  destruct (session_post_cases rq c)
    as [(Hw & He) | [(e & w & Hw & He) | [(r' & w & Hw & Hr & He)
                                          | (r' & w & Hw & Hs & He)]]];
    rewrite He in H; try discriminate H.
  injection H as <- <-. by rewrite Hw.
Qed.

Lemma drop_tail {A} k (l : list A) : tail (drop k l) = drop (S k) l.
Proof.
  revert l. induction k as [|k IH]; intros [|x l]; simpl; done.
Qed.

Section ScanInvariants.

Variable Set_LOGIN Get_CM_SYSTEM_INFO : value.
Variable parse_qs : string → gmap string (list string).

(** A pass uses up a front piece of the script. *)
Lemma scan_body_wire_drop f :
  ∃ k, wire (modem (scan_body Set_LOGIN Get_CM_SYSTEM_INFO parse_qs f).2)
       = drop k (wire (modem f)).
Proof.
  rewrite scan_body_eq.
  pose proof (session_post_wire
                (getter_request (VInt (current_pos f)) (modem f))
                (set_objects (objects (modem f) ++ [[]])%list (modem f))) as H1.
  destruct (session_post _ _) as [[res|e] c1]; simpl in H1;
    [|exists 1%nat; simpl; by rewrite H1, <- drop_tail, drop_0].
  assert (Hsc : ∀ g, wire (modem (status_check res g).2) = wire (modem g)).
  { intros g. unfold status_check. by destruct (status_code res =? 200)%Z. }
  destruct (String.eqb (text res) "").
  - pose proof (session_post_wire (getter_request Get_CM_SYSTEM_INFO c1)
                  (set_objects (objects c1 ++ [[]])%list c1)) as H2.
    destruct (session_post _ _) as [[v|e] c2]; simpl in H2.
    + destruct (status_code v =? 200)%Z.
      * exists 2%nat. rewrite Hsc. simpl modem.
        by rewrite H2, H1, <- !drop_tail, drop_0.
      * pose proof (login_wire Set_LOGIN parse_qs (scanner_key f) c2) as H3.
        exists 3%nat.
        destruct (login _ _ _ _) as [[?|?] c3]; simpl in *;
          by rewrite H3, H2, H1, <- !drop_tail, drop_0.
    + exists 2%nat. simpl. by rewrite H2, H1, <- !drop_tail, drop_0.
  - exists 1%nat. rewrite Hsc. simpl modem.
    by rewrite H1, <- drop_tail, drop_0.
Qed.

Lemma scan_body_last_login f :
  let f' := (scan_body Set_LOGIN Get_CM_SYSTEM_INFO parse_qs f).2 in
  last_login f' = last_login f ∨ last_login f' = current_pos f.
Proof.
  simpl. rewrite scan_body_eq.
  destruct (session_post _ _) as [[res|e] c1]; [|by left].
  assert (Hsc : ∀ g, last_login (status_check res g).2 = last_login g).
  { intros g. unfold status_check. by destruct (status_code res =? 200)%Z. }
  destruct (String.eqb (text res) ""); [|left; by rewrite Hsc].
  destruct (session_post _ _) as [[v|e] c2]; [|by left].
  destruct (status_code v =? 200)%Z; [left; by rewrite Hsc|].
  right. by destruct (login _ _ _ _) as [[?|?] c3].
Qed.

(** The pass that ends the loop. *)
Lemma scan_body_final f r f' :
  scan_body Set_LOGIN Get_CM_SYSTEM_INFO parse_qs f = (Ok r, f') →
  scan_test (Some r) = false →
  status_code r = 200
  ∧ text r ≠ ""
  ∧ current_pos f' = current_pos f + 1
  ∧ last_login f' = last_login f
  ∧ wire (modem f) = Answers r :: wire (modem f')
  ∧ sent (modem f')
    = (sent (modem f)
         ++ [getter_request (VInt (current_pos f)) (modem f)])%list.
Proof.
  rewrite scan_body_eq. intros Hb Ht.
  simpl in Ht. apply orb_false_elim in Ht as [_ Ht].
  destruct (session_post _ _) as [[res|e] c1] eqn:H1; [|discriminate].
  apply session_post_Ok_inv in H1 as [Hw Hs]. simpl in Hw, Hs.
  destruct (String.eqb (text res) "") eqn:Hres.
  - exfalso.
    destruct (session_post _ _) as [[v|e] c2]; [|discriminate].
    destruct (status_code v =? 200)%Z.
    + unfold status_check in Hb.
      destruct (status_code res =? 200)%Z; [|discriminate].
      injection Hb as -> _. congruence.
    + destruct (login _ _ _ _) as [[?|?] c3]; [|discriminate].
      injection Hb as -> _. congruence.
  - unfold status_check in Hb.
    destruct (Z.eqb_spec (status_code res) 200) as [H200|]; [|discriminate].
    injection Hb as -> <-. simpl.
    split_and!; [done | | done..].
    intros Hempty. by rewrite Hempty in Ht.
Qed.

(** X12: over a whole run of [scan], however it ends, the cursor never moves
    back, [last_login] is either untouched or a position between the
    cursor's first and last value, and what is left of the device's script
    is a tail of what there was. *)
Theorem scan_cursor_monotone (n : nat) (res : option Response)
    (f : FuncScanner) (out : result (option Response)) (f' : FuncScanner) :
  scan_loop Set_LOGIN Get_CM_SYSTEM_INFO parse_qs n res f = Some (out, f') →
  (current_pos f ≤ current_pos f')%Z
  ∧ (last_login f' = last_login f
     ∨ (current_pos f ≤ last_login f' ≤ current_pos f')%Z)
  ∧ ∃ k, wire (modem f') = drop k (wire (modem f)).
Proof.
  revert res f. induction n as [|n IH]; intros res f; simpl.
  - destruct (scan_test res); [discriminate|].
    intros [= <- <-]. split_and!; [lia | by left | by exists 0%nat].
  - destruct (scan_test res).
    2:{ intros [= <- <-]. split_and!; [lia | by left | by exists 0%nat]. }
    pose proof (scan_body_cursor Set_LOGIN Get_CM_SYSTEM_INFO parse_qs f) as Hc.
    pose proof (scan_body_last_login f) as Hl. simpl in Hl.
    destruct (scan_body_wire_drop f) as [k Hk].
    assert (Hstep : (current_pos f
                     ≤ current_pos
                         (scan_body Set_LOGIN Get_CM_SYSTEM_INFO parse_qs f).2)%Z)
      by (rewrite Hc; destruct (probe_advances _); lia).
    destruct (scan_body _ _ _ f) as [[r|e] f1]; simpl in *.
    + intros H. apply IH in H as (Hpos & Hll & k' & Hk').
      split_and!; [lia | | ].
      * destruct Hll as [Hll | Hll]; destruct Hl as [Hl | Hl];
          [left; congruence | right; lia | right; lia | right; lia].
      * exists (k + k')%nat. by rewrite Hk', Hk, drop_drop.
    + intros [= <- <-]. split_and!; [done | | by exists k].
      destruct Hl as [Hl | Hl]; [by left | right; lia].
Qed.

Lemma scan_loop_returns_previous n res f out f' :
  scan_test res = true →
  scan_loop Set_LOGIN Get_CM_SYSTEM_INFO parse_qs n res f
  = Some (Ok out, f') →
  ∃ r, out = Some r
       ∧ status_code r = 200
       ∧ text r ≠ ""
       ∧ (current_pos f < current_pos f')%Z
       ∧ (∃ c, last (sent (modem f'))
               = Some (getter_request (VInt (current_pos f' - 1)) c))
       ∧ ∃ pre, wire (modem f) = (pre ++ Answers r :: wire (modem f'))%list.
Proof.
  revert res f. induction n as [|n IH]; intros res f Ht; simpl; rewrite Ht;
    [discriminate|].
  destruct (scan_body _ _ _ f) as [[r1|e] f1] eqn:Hb; [|discriminate].
  destruct (scan_test (Some r1)) eqn:Ht1.
  - intros H.
    destruct (scan_body_wire_drop f) as [k Hk]. rewrite Hb in Hk. simpl in Hk.
    pose proof (scan_body_cursor Set_LOGIN Get_CM_SYSTEM_INFO parse_qs f) as Hc.
    rewrite Hb in Hc. simpl in Hc.
    apply IH in H as (r & -> & Hs & Htx & Hpos & Hlast & pre & Hpre); [|done].
    exists r. split_and!; [done | done | done | | done |].
    + destruct (probe_advances _); lia.
    + exists (take k (wire (modem f)) ++ pre)%list.
      rewrite <- app_assoc, <- Hpre, Hk. by rewrite take_drop.
  - intros H.
    assert (out = Some r1 ∧ f' = f1) as [-> ->].
    { destruct n; cbn [scan_loop] in H; rewrite Ht1 in H;
        by injection H as <- <-. }
    apply scan_body_final in Hb as (Hs & Htx & Hpos & _ & Hw & Hsent); [|done].
    exists r1. split_and!; [done | done | done | lia | |].
    + exists (modem f). rewrite Hsent, last_snoc. do 3 f_equal. lia.
    + by exists [].
Qed.

(** X13: when [scan] returns, it returns a response with status [200] and a
    body, the cursor has moved on, and the response is the answer to the
    last request sent, which is the probe of the position just before the
    cursor: the position [current_pos - 1] that [scan_to_file] and
    [enumerate] attribute the response to. *)
Theorem scan_returns_previous_position (n : nat) (f : FuncScanner)
    (out : option Response) (f' : FuncScanner) :
  scan Set_LOGIN Get_CM_SYSTEM_INFO parse_qs n f = Some (Ok out, f') →
  ∃ r, out = Some r
       ∧ status_code r = 200
       ∧ text r ≠ ""
       ∧ (current_pos f < current_pos f')%Z
       ∧ (∃ c, last (sent (modem f'))
               = Some (getter_request (VInt (current_pos f' - 1)) c))
       ∧ ∃ pre, wire (modem f) = (pre ++ Answers r :: wire (modem f'))%list.
Proof. unfold scan. by apply scan_loop_returns_previous. Qed.

End ScanInvariants.

Lemma scan_cursor_monotone_witness :
  let res := scan (VInt 15) (VInt 2) sample_parse_qs 2 stale_scanner in
  let f' := from_option snd stale_scanner res in
  (current_pos stale_scanner ≤ current_pos f')%Z
  ∧ (last_login f' = last_login stale_scanner
     ∨ (current_pos stale_scanner ≤ last_login f' ≤ current_pos f')%Z)
  ∧ ∃ k, wire (modem f') = drop k (wire (modem stale_scanner)).
Proof.
  intros res f'.
  apply (scan_cursor_monotone (VInt 15) (VInt 2) sample_parse_qs 2 None
           stale_scanner (from_option fst (Raise ReadTimeout) res) f').
  vm_compute. reflexivity.
Defined.

Lemma scan_returns_previous_position_witness :
  let res := scan (VInt 15) (VInt 2) sample_parse_qs 2 stale_scanner in
  let f' := from_option snd stale_scanner res in
  ∃ r, Some (sample_response 200 "<lang/>" (Some "56") None) = Some r
       ∧ status_code r = 200
       ∧ text r ≠ ""
       ∧ (current_pos stale_scanner < current_pos f')%Z
       ∧ (∃ c, last (sent (modem f'))
               = Some (getter_request (VInt (current_pos f' - 1)) c))
       ∧ ∃ pre, wire (modem stale_scanner)
                = (pre ++ Answers r :: wire (modem f'))%list.
Proof.
  intros res f'.
  apply (scan_returns_previous_position (VInt 15) (VInt 2) sample_parse_qs 2
           stale_scanner
           (Some (sample_response 200 "<lang/>" (Some "56") None)) f').
  vm_compute. reflexivity.
Defined.

(** ** The settings classes *)

Lemma lift_state {A} (m : Py Compal A) c : (lift m c).2 = (m c).2.
Proof. unfold lift. by destruct (m c) as [[?|?] ?]. Qed.

Lemma setter_call_sent f (d : dict) c :
  NoDup (keys d) → "token" ∉ keys d → "fun" ∉ keys d →
  sent ((p ← alloc d; xml_setter f (Some p)) c).2
  = (sent c ++
       [post_request c "/xml/setter.xml"
          (("token", token_value (session_token c)) :: ("fun", f) :: d)])%list.
Proof.
  intros. py_unfold. cbv beta iota. rewrite xml_setter_fresh by done.
  by rewrite session_post_sent.
Qed.

(** *** Strings joined with a separator *)

Lemma count_char_app a s1 s2 :
  count_char a (s1 ++ s2) = (count_char a s1 + count_char a s2)%nat.
Proof. induction s1 as [|b s1 IH]; simpl; [done|]. rewrite IH. lia. Qed.

Lemma count_char_repeat a n :
  count_char a (str_repeat a n) = Z.to_nat n.
Proof.
  unfold str_repeat. induction (Z.to_nat n) as [|k IH]; simpl; [done|].
  by rewrite Ascii.eqb_refl, IH.
Qed.

Lemma count_char_join a items :
  Forall (λ x, count_char a x = 0%nat) items →
  count_char a (str_join (String a "") items) = (length items - 1)%nat.
Proof.
  induction 1 as [|x items Hx Hitems IH]; [done|].
  destruct items as [|y items]; [simpl; by rewrite Hx|].
  change (str_join (String a "") (x :: y :: items))
    with (x ++ String a (str_join (String a "") (y :: items))).
  rewrite count_char_app. cbn [count_char].
  rewrite Ascii.eqb_refl, Hx, IH. simpl length. lia.
Qed.

Lemma split_on_no_sep a x :
  count_char a x = 0%nat → split_on a x = [x].
Proof.
  induction x as [|b x IH]; simpl; [done|].
  destruct (Ascii.eqb b a); [done|]. intros H. by rewrite IH.
Qed.

Lemma split_on_app_sep a x rest :
  count_char a x = 0%nat →
  split_on a (x ++ String a rest) = x :: split_on a rest.
Proof.
  induction x as [|b x IH]; simpl.
  - by rewrite Ascii.eqb_refl.
  - destruct (Ascii.eqb b a); [done|]. intros H. by rewrite IH.
Qed.

Lemma split_on_join a items :
  items ≠ [] →
  Forall (λ x, count_char a x = 0%nat) items →
  split_on a (str_join (String a "") items) = items.
Proof.
  intros Hne Hall. induction Hall as [|x items Hx Hitems IH]; [done|].
  destruct items as [|y items].
  - simpl. by apply split_on_no_sep.
  - change (str_join (String a "") (x :: y :: items))
      with (x ++ String a (str_join (String a "") (y :: items))).
    rewrite split_on_app_sep by done. by rewrite IH.
Qed.

Lemma no_star_in_uint d :
  count_char "*" (NilEmpty.string_of_uint d) = 0%nat.
Proof. induction d; simpl; done. Qed.

Lemma no_star_in_str_of_int n : count_char "*" (str_of_int n) = 0%nat.
Proof.
  unfold str_of_int, NilZero.string_of_int, NilZero.string_of_uint.
  destruct (Z.to_int n) as [d|d]; destruct d; simpl;
    try done; apply no_star_in_uint.
Qed.

Lemma no_star_in_str_of_opt_int x : count_char "*" (str_of_opt_int x) = 0%nat.
Proof. destruct x; [apply no_star_in_str_of_int | done]. Qed.

(** *** Keys of updated dictionaries *)

Lemma keys_dict_setitem_in k v (d : dict) :
  k ∈ keys d → keys (dict_setitem k v d) = keys d.
Proof.
  unfold keys. induction d as [|[k' v'] d IH]; simpl; [by inversion 1|].
  case_decide; subst; simpl; [done|].
  rewrite elem_of_cons. intros [?|Hin]; [congruence|]. f_equal. by apply IH.
Qed.

Lemma keys_dict_setitem_notin k v (d : dict) :
  k ∉ keys d → keys (dict_setitem k v d) = (keys d ++ [k])%list.
Proof.
  intros H. rewrite dict_setitem_fresh by done. unfold keys.
  by rewrite fmap_app.
Qed.

Lemma elem_of_keys_dict_setitem k v (d : dict) k' :
  k' ∈ keys (dict_setitem k v d) ↔ k' = k ∨ k' ∈ keys d.
Proof.
  destruct (decide (k ∈ keys d)) as [Hin|Hnin].
  - rewrite keys_dict_setitem_in by done. split; [by right|].
    by intros [->|?].
  - rewrite keys_dict_setitem_notin by done.
    rewrite elem_of_app, list_elem_of_singleton. tauto.
Qed.

Lemma NoDup_keys_dict_setitem k v (d : dict) :
  NoDup (keys d) → NoDup (keys (dict_setitem k v d)).
Proof.
  intros Hnd. destruct (decide (k ∈ keys d)) as [Hin|Hnin].
  - by rewrite keys_dict_setitem_in.
  - rewrite keys_dict_setitem_notin by done.
    apply NoDup_app. split_and!; [done | | apply NoDup_singleton].
    intros x Hx ->%list_elem_of_singleton. done.
Qed.

Lemma elem_of_keys_dict_update (d other : dict) k :
  k ∈ keys (dict_update d other) ↔ k ∈ keys d ∨ k ∈ keys other.
Proof.
  unfold dict_update. revert d.
  induction other as [|[k' v'] other IH]; intros d; simpl.
  - split; [by left | intros [?|H]; [done | by inversion H]].
  - rewrite IH, elem_of_keys_dict_setitem.
    unfold keys at 3. simpl. rewrite elem_of_cons. unfold keys. tauto.
Qed.

Lemma NoDup_keys_dict_update (d other : dict) :
  NoDup (keys d) → NoDup (keys (dict_update d other)).
Proof.
  unfold dict_update. revert d.
  induction other as [|[k' v'] other IH]; intros d Hnd; simpl; [done|].
  by apply IH, NoDup_keys_dict_setitem.
Qed.

(** [OrderedDict(items)] has each key once, and the keys of the items. *)
Lemma NoDup_keys_OrderedDict items : NoDup (keys (OrderedDict items)).
Proof. apply NoDup_keys_dict_update. constructor. Qed.

Lemma elem_of_keys_OrderedDict items k :
  k ∈ keys (OrderedDict items) ↔ k ∈ keys items.
Proof.
  unfold OrderedDict. rewrite elem_of_keys_dict_update.
  split; [intros [H|?]; [by inversion H | done] | by right].
Qed.

Lemma OrderedDict_NoDup items :
  NoDup (keys items) → OrderedDict items = items.
Proof.
  intros Hnd. unfold OrderedDict. rewrite dict_update_fresh; [done..|].
  intros k _ H. by inversion H.
Qed.

Ltac solve_NoDup_keys :=
  unfold keys; simpl; cbv [String.append];
  repeat (apply NoDup_cons; split;
          [repeat (rewrite not_elem_of_cons); split_and?;
           try congruence; apply not_elem_of_nil|]);
  apply NoDup_nil_2.

Lemma transform_radio_items rs : transform_radio rs = radio_items rs.
Proof.
  unfold transform_radio.
  rewrite (OrderedDict_NoDup [_; _; _; _; _; _; _; _; _; _; _; _])
    by (unfold keys; simpl; by_decide).
  cbn [map fst snd].
  rewrite OrderedDict_NoDup by solve_NoDup_keys.
  reflexivity.
Qed.

(** The loop of [update_wifi_settings]: the items of the two bands in
    turns, and the coexistence item only behind a 2g-side item whose key is
    [wlHiden5g]. *)
Lemma alternate_radio_items bss r2 r5 :
  alternate bss (radio_items r2) (radio_items r5)
  = (take 12 (in_turns (radio_items r2) (radio_items r5))
       ++ (if String.eqb (radio r2) "5g" then [("wlCoexistence", bss)] else [])
       ++ drop 12 (in_turns (radio_items r2) (radio_items r5)))%list.
Proof.
  reflexivity.
Qed.

Ltac not_in_keys :=
  unfold keys; simpl; cbv [String.append];
  repeat (rewrite not_elem_of_cons); split_and?;
  try congruence; apply not_elem_of_nil.

Lemma str_of_int_b2z b : str_of_int (Z.b2z b) = if b then "1" else "0".
Proof. by destruct b. Qed.

Section SettingsProperties.

Variable Set_FIREWALL Set_PORT_FORWARDING Set_WIFI_SETTINGS : value.
Variable Get_TRACEROUTE_RESULT : value.

(** X14: [update_firewall] refuses detail flags on a disabled firewall with an
    [AssertionError] before anything is sent.  Otherwise the four detail
    flags have no effect at all: the call is the same as with all of them
    off, and the fields they name are sent empty; only [enabled] (as 1 or
    2) and the ICMP rate are transmitted. *)
Theorem update_firewall_ignores_flags
    (enabled fragment port_scan ip_flood icmp_flood : bool) (icmp_rate : Z)
    (c : Compal) :
  (enabled = false →
   fragment || port_scan || ip_flood || icmp_flood = true →
   update_firewall Set_FIREWALL enabled fragment port_scan ip_flood icmp_flood
     icmp_rate c
   = (Raises AssertionError, c))
  ∧ (enabled || negb (fragment || port_scan || ip_flood || icmp_flood) = true →
     update_firewall Set_FIREWALL enabled fragment port_scan ip_flood icmp_flood
       icmp_rate c
     = update_firewall Set_FIREWALL enabled false false false false icmp_rate c
     ∧ ∃ rq,
         sent (update_firewall Set_FIREWALL enabled fragment port_scan ip_flood
                 icmp_flood icmp_rate c).2
         = (sent c ++ [rq])%list
         ∧ form_field "firewallProtection" rq
           = Some (VInt (if enabled then 1 else 2))
         ∧ form_field "IcmpFloodDetectRate" rq = Some (VInt icmp_rate)
         ∧ form_field "blockIpFragments" rq = Some (VStr "")
         ∧ form_field "portScanDetection" rq = Some (VStr "")
         ∧ form_field "synFloodDetection" rq = Some (VStr "")
         ∧ form_field "IcmpFloodDetection" rq = Some (VStr "")).
Proof.
  split.
  - intros -> Hflags. unfold update_firewall. by rewrite Hflags.
  - intros Hok. unfold update_firewall. rewrite Hok.
    replace (enabled || negb (false || false || false || false)) with true
      by (by rewrite orb_true_r).
    split; [done|].
    rewrite lift_state.
    rewrite setter_call_sent by (unfold keys; simpl; by_decide).
    eexists. split; [reflexivity|]. by destruct enabled.
Qed.

(** X15: [add_forward] sends one port as both ends of each range: the
    [start_port] and [end_port] fields are both [ext_port], the
    [start_portIn] and [end_portIn] fields are both [int_port], and
    [delete] is always 0. *)
Theorem add_forward_single_ports (ip ext_port int_port : value)
    (proto : Proto) (enabled : bool) (c : Compal) :
  ∃ rq,
    sent (add_forward Set_PORT_FORWARDING ip ext_port int_port proto enabled
            c).2
    = (sent c ++ [rq])%list
    ∧ form_keys rq
      = ["token"; "fun"; "action"; "instance"; "local_IP"; "start_port";
         "end_port"; "start_portIn"; "end_portIn"; "protocol"; "enable";
         "delete"; "idd"]
    ∧ form_field "start_port" rq = Some ext_port
    ∧ form_field "end_port" rq = Some ext_port
    ∧ form_field "start_portIn" rq = Some int_port
    ∧ form_field "end_portIn" rq = Some int_port
    ∧ form_field "protocol" rq = Some (VInt (proto_value proto))
    ∧ form_field "enable" rq = Some (VInt (if enabled then 1 else 0))
    ∧ form_field "delete" rq = Some (VInt 0).
Proof.
  unfold add_forward.
  rewrite setter_call_sent by (unfold keys; simpl; by_decide).
  eexists. split; [reflexivity|]. by destruct enabled.
Qed.

(** X16: [update_rules] packs the rules into [*]-separated fields that agree
    with each other: [instance], [protocol], [enable] and [delete] and the
    two placeholder fields [start_portIn] and [idd] all hold
    [len(rules) - 1] asterisks (none for an empty list), and for a
    non-empty list splitting the four value fields at [*] gives back, rule
    by rule, the id, the protocol number and the two flags as 0 or 1. *)
Theorem update_rules_star_fields (rules : list PortForward) (c : Compal) :
  ∃ rq inst prot en del spin idd_,
    sent (update_rules Set_PORT_FORWARDING rules c).2 = (sent c ++ [rq])%list
    ∧ form_field "instance" rq = Some (VStr inst)
    ∧ form_field "protocol" rq = Some (VStr prot)
    ∧ form_field "enable" rq = Some (VStr en)
    ∧ form_field "delete" rq = Some (VStr del)
    ∧ form_field "start_portIn" rq = Some (VStr spin)
    ∧ form_field "idd" rq = Some (VStr idd_)
    ∧ Forall (λ s, count_char "*" s = (length rules - 1)%nat)
        [inst; prot; en; del; spin; idd_]
    ∧ (rules ≠ [] →
       split_on "*" inst = map (λ r, str_of_opt_int (id_ r)) rules
       ∧ split_on "*" prot = map (λ r, str_of_int (proto_value (proto r))) rules
       ∧ split_on "*" en = map (λ r, if enabled r then "1" else "0") rules
       ∧ split_on "*" del = map (λ r, if delete_ r then "1" else "0") rules).
Proof.
  unfold update_rules.
  rewrite setter_call_sent by (unfold keys; simpl; by_decide).
  do 7 eexists. split; [reflexivity|].
  split_and!; [reflexivity.. | |].
  - assert (Hjoin : ∀ g : PortForward → string,
              (∀ r, count_char "*" (g r) = 0%nat) →
              count_char "*" (str_join "*" (map g rules))
              = (length rules - 1)%nat).
    { intros g Hg. rewrite count_char_join; [by rewrite length_map|].
      apply Forall_forall. intros x Hx.
      apply list_elem_of_In, in_map_iff in Hx as (r & <- & _). apply Hg. }
    repeat (apply List.Forall_cons); try apply List.Forall_nil.
    + apply Hjoin. intros. apply no_star_in_str_of_opt_int.
    + apply Hjoin. intros. apply no_star_in_str_of_int.
    + apply Hjoin. intros. apply no_star_in_str_of_int.
    + apply Hjoin. intros. apply no_star_in_str_of_int.
    + rewrite count_char_repeat. lia.
    + rewrite count_char_repeat. lia.
  - intros Hne.
    assert (Hsplit : ∀ g : PortForward → string,
              (∀ r, count_char "*" (g r) = 0%nat) →
              split_on "*" (str_join "*" (map g rules)) = map g rules).
    { intros g Hg. apply split_on_join; [by destruct rules|].
      apply Forall_forall. intros x Hx.
      apply list_elem_of_In, in_map_iff in Hx as (r & <- & _). apply Hg. }
    split_and!.
    + apply Hsplit. intros. apply no_star_in_str_of_opt_int.
    + apply Hsplit. intros. apply no_star_in_str_of_int.
    + rewrite Hsplit by (intros; apply no_star_in_str_of_int).
      apply map_ext. intros. apply str_of_int_b2z.
    + rewrite Hsplit by (intros; apply no_star_in_str_of_int).
      apply map_ext. intros. apply str_of_int_b2z.
Qed.

(** X17: [Diagnostics.traceroute_response] never returns a value: it reads the
    attribute [test], which a response does not have, so once the device
    has answered its request it raises [AttributeError]. *)
Theorem traceroute_response_never_returns (c : Compal) :
  (∀ v, (traceroute_response Get_TRACEROUTE_RESULT c).1 ≠ Returns v)
  ∧ (∀ r w,
       wire c = Answers r :: w →
       hook_completes r = true →
       (traceroute_response Get_TRACEROUTE_RESULT c).1
       = Raises (AttributeError "'Response' object has no attribute 'test'")
       ∧ sent (traceroute_response Get_TRACEROUTE_RESULT c).2
         = (sent c ++ [getter_request Get_TRACEROUTE_RESULT c])%list
       ∧ wire (traceroute_response Get_TRACEROUTE_RESULT c).2 = w).
Proof.
  unfold traceroute_response, lift. py_unfold. cbv beta iota.
  rewrite xml_getter_empty. split.
  - intros v. by destruct (session_post _ _) as [[?|?] ?].
  - intros r w Hw Hr. by erewrite session_post_answered by done.
Qed.

End SettingsProperties.

Section WifiProperties.

Variable Set_WIFI_SETTINGS : value.

Lemma wifi_items_keys settings :
  let out_s :=
    alternate (bss_coexistence settings)
      (transform_radio (radio_2g settings))
      (transform_radio (radio_5g settings)) in
  ("token" ∉ keys out_s)
  ∧ ("fun" ∉ keys out_s)
  ∧ ("wlCoexistence" ∈ keys out_s ↔ radio (radio_2g settings) = "5g").
Proof.
  intros out_s. subst out_s.
  rewrite !transform_radio_items, alternate_radio_items.
  unfold radio_items. cbn [in_turns take drop].
  destruct (String.eqb_spec (radio (radio_2g settings)) "5g") as [Heq|Hne].
  - split_and!; [not_in_keys | not_in_keys |].
    split; [done|]. intros _. unfold keys. simpl.
    repeat (rewrite elem_of_cons). do 12 right. by left.
  - split_and!; [not_in_keys | not_in_keys |].
    split; [|done]. intros Hin. exfalso. revert Hin.
    match goal with
    | |- ?x ∈ ?l → False => change (x ∉ l)
    end.
    not_in_keys.
Qed.

(** X18: [update_wifi_settings] sends the coexistence setting only if the
    record for the 2g band is labelled ["5g"]: the test for the place to
    insert it compares the 2g-side key with [wlHiden5g].  With the 2g
    record labelled ["2g"], [bss_coexistence] is never transmitted. *)
Theorem wifi_coexistence_sent_iff (settings : RadioSettings) (c : Compal) :
  ∃ rq,
    sent (update_wifi_settings Set_WIFI_SETTINGS settings c).2
    = (sent c ++ [rq])%list
    ∧ ("wlCoexistence" ∈ form_keys rq ↔ radio (radio_2g settings) = "5g")
    ∧ (radio (radio_2g settings) = "2g" → "wlCoexistence" ∉ form_keys rq).
Proof.
  destruct (wifi_items_keys settings) as (Htok & Hfun & Hco).
  unfold update_wifi_settings.
  rewrite setter_call_sent;
    [| apply NoDup_keys_OrderedDict
     | by rewrite elem_of_keys_OrderedDict
     | by rewrite elem_of_keys_OrderedDict].
  eexists. split; [reflexivity|].
  match goal with
  | |- context [form_keys (post_request _ _ (?t :: ?f :: ?d))] =>
      change (form_keys (post_request c "/xml/setter.xml" (t :: f :: d)))
        with ("token" :: "fun" :: keys d)
  end.
  assert (Hiff : "wlCoexistence"
                   ∈ "token" :: "fun"
                       :: keys (OrderedDict
                                  (alternate (bss_coexistence settings)
                                     (transform_radio (radio_2g settings))
                                     (transform_radio (radio_5g settings))))
                 ↔ radio (radio_2g settings) = "5g").
  { rewrite !elem_of_cons, elem_of_keys_OrderedDict, Hco.
    split; [intros [?|[?|?]]; done | by do 2 right]. }
  split; [done|].
  intros H2g Hin. apply Hiff in Hin. congruence.
Qed.

(** X19: with the two records labelled ["2g"] and ["5g"], the request of
    [update_wifi_settings] carries, after the token and the function, the
    twelve settings of the two bands in turns, 2g before 5g, and nothing
    else. *)
Theorem wifi_fields_in_turns (settings : RadioSettings) (c : Compal) :
  radio (radio_2g settings) = "2g" →
  radio (radio_5g settings) = "5g" →
  ∃ rq,
    sent (update_wifi_settings Set_WIFI_SETTINGS settings c).2
    = (sent c ++ [rq])%list
    ∧ rq_data rq
      = Form (("token", token_value (session_token c))
                :: ("fun", Set_WIFI_SETTINGS)
                :: in_turns (radio_items (radio_2g settings))
                     (radio_items (radio_5g settings))).
Proof.
  intros H2 H5. unfold update_wifi_settings.
  rewrite !transform_radio_items, alternate_radio_items.
  rewrite H2. change (String.eqb "2g" "5g") with false. cbv iota.
  change ([] ++ ?l)%list with l. rewrite take_drop.
  assert (Hkeys : keys (in_turns (radio_items (radio_2g settings))
                          (radio_items (radio_5g settings)))
                  = ["wlBandMode2g"; "wlBandMode5g"; "wlSsid2g"; "wlSsid5g";
                     "wlBandwidth2g"; "wlBandwidth5g"; "wlTxMode2g";
                     "wlTxMode5g"; "wlMCastRate2g"; "wlMCastRate5g";
                     "wlHiden2g"; "wlHiden5g"; "wlPSkey2g"; "wlPSkey5g";
                     "wlTxrate2g"; "wlTxrate5g"; "wlRekey2g"; "wlRekey5g";
                     "wlChannel2g"; "wlChannel5g"; "wlSecurity2g";
                     "wlSecurity5g"; "wlWpaalg2g"; "wlWpaalg5g"]).
  { unfold radio_items. rewrite H2, H5. reflexivity. }
  rewrite OrderedDict_NoDup by (rewrite Hkeys; by_decide).
  rewrite setter_call_sent by (rewrite Hkeys; by_decide).
  eexists. split; reflexivity.
Qed.

End WifiProperties.

Lemma update_firewall_ignores_flags_witness :
  let c := sample_modem (Some "52") []
             [Answers (sample_response 200 "" (Some "53") None)] in
  update_firewall (VInt 116) false true false false false 15 c
  = (Raises AssertionError, c)
  ∧ update_firewall (VInt 116) true true true false true 15 c
    = update_firewall (VInt 116) true false false false false 15 c.
Proof.
  intros c. split.
  - exact (proj1 (update_firewall_ignores_flags (VInt 116) false true false
                    false false 15 c) eq_refl eq_refl).
  - exact (proj1 (proj2 (update_firewall_ignores_flags (VInt 116) true true
                           true false true 15 c) eq_refl)).
Defined.

Lemma update_rules_star_fields_witness :
  let rules := [sample_rule 1 tcp true; sample_rule 2 both false;
                sample_rule 7 udp true] in
  ∃ rq inst prot en del spin idd_,
    sent (update_rules (VInt 122) rules (sample_modem (Some "52") [] [])).2
    = [rq]
    ∧ form_field "instance" rq = Some (VStr inst)
    ∧ form_field "protocol" rq = Some (VStr prot)
    ∧ form_field "enable" rq = Some (VStr en)
    ∧ form_field "delete" rq = Some (VStr del)
    ∧ form_field "start_portIn" rq = Some (VStr spin)
    ∧ form_field "idd" rq = Some (VStr idd_)
    ∧ split_on "*" inst = ["1"; "2"; "7"]
    ∧ split_on "*" prot = ["1"; "3"; "2"]
    ∧ split_on "*" en = ["1"; "0"; "1"]
    ∧ split_on "*" del = ["0"; "0"; "0"].
Proof.
  intros rules.
  destruct (update_rules_star_fields (VInt 122) rules
              (sample_modem (Some "52") [] []))
    as (rq & inst & prot & en & del & spin & idd_ & Hs & H1 & H2 & H3 & H4
        & H5 & H6 & _ & Hsplit).
  destruct (Hsplit ltac:(discriminate)) as (S1 & S2 & S3 & S4).
  exists rq, inst, prot, en, del, spin, idd_.
  split_and!; [exact Hs | exact H1 | exact H2 | exact H3 | exact H4 | exact H5
              | exact H6 | exact S1 | exact S2 | exact S3 | exact S4].
Defined.

Lemma traceroute_response_never_returns_witness :
  let r := sample_response 200 "traceroute to 8.8.8.8" (Some "53") None in
  (traceroute_response (VInt 130) (sample_modem (Some "52") [] [Answers r])).1
  = Raises (AttributeError "'Response' object has no attribute 'test'").
Proof.
  intros r.
  exact (proj1 (proj2 (traceroute_response_never_returns (VInt 130)
                         (sample_modem (Some "52") [] [Answers r]))
                  r [] eq_refl eq_refl)).
Defined.

Lemma wifi_coexistence_sent_iff_witness :
  ∃ rq,
    sent (update_wifi_settings (VInt 301) sample_radio_settings
            (sample_modem (Some "52") [] [])).2 = [rq]
    ∧ "wlCoexistence" ∉ form_keys rq.
Proof.
  destruct (wifi_coexistence_sent_iff (VInt 301) sample_radio_settings
              (sample_modem (Some "52") [] [])) as (rq & Hs & _ & Hnever).
  exists rq. split; [exact Hs | exact (Hnever eq_refl)].
Defined.

Lemma wifi_fields_in_turns_witness :
  ∃ rq,
    sent (update_wifi_settings (VInt 301) sample_radio_settings
            (sample_modem (Some "52") [] [])).2 = [rq]
    ∧ rq_data rq
      = Form (("token", VStr "52") :: ("fun", VInt 301)
                :: in_turns (radio_items (sample_band "2g" "home"))
                     (radio_items (sample_band "5g" "home-5g"))).
Proof.
  exact (wifi_fields_in_turns (VInt 301) sample_radio_settings
           (sample_modem (Some "52") [] []) eq_refl eq_refl).
Defined.
